(** * Voice provider abstraction: unified hook and server-side provider library

    A shallow embedding of
      - [hooks/use-omni-chat.ts]  (the three provider adapters and the
        unified controller [useOmniChat]);
      - [lib/ai/omni-voice.ts]    (history formatters, call creation bodies and
        call termination);
      - [app/(chat)/api/omni-voice/route.ts] (the DELETE handler).

    Strings are sequences of 8-bit code units ([String.string]).  Letter-case
    conversion is the ECMAScript one on the ASCII letters and the identity on
    every other code unit; white space is the ECMAScript WhiteSpace and
    LineTerminator set below U+0100.  React state is a record; every
    [setState(prev => ...)] of the source is a function on that record,
    applied in order.  Exceptions are values of [Result]. *)

From Stdlib Require Import Bool List Arith NArith ZArith Lia.
From Stdlib Require Import Ascii String.
Import ListNotations.
Open Scope string_scope.

(* ------------------------------------------------------------------ *)
(** ** JavaScript strings *)

Module Js.

Definition code (c : ascii) : N := N_of_ascii c.

Definition isLower (c : ascii) : bool := ((97 <=? code c) && (code c <=? 122))%N.
Definition isUpper (c : ascii) : bool := ((65 <=? code c) && (code c <=? 90))%N.

Definition upperChar (c : ascii) : ascii :=
  if isLower c then ascii_of_N (code c - 32) else c.
Definition lowerChar (c : ascii) : ascii :=
  if isUpper c then ascii_of_N (code c + 32) else c.

(** [s.toUpperCase()] and [s.toLowerCase()]. *)
Fixpoint toUpperCase (s : string) : string :=
  match s with
  | EmptyString => EmptyString
  | String c r => String (upperChar c) (toUpperCase r)
  end.

Fixpoint toLowerCase (s : string) : string :=
  match s with
  | EmptyString => EmptyString
  | String c r => String (lowerChar c) (toLowerCase r)
  end.

(** TAB, LF, VT, FF, CR, SP and NBSP. *)
Definition isWhiteSpace (c : ascii) : bool :=
  let n := code c in
  ((9 <=? n) && (n <=? 13) || (n =? 32) || (n =? 160))%N.

Definition isEmpty (s : string) : bool :=
  match s with EmptyString => true | String _ _ => false end.

Fixpoint trimStart (s : string) : string :=
  match s with
  | EmptyString => EmptyString
  | String c r => if isWhiteSpace c then trimStart r else s
  end.

Fixpoint trimEnd (s : string) : string :=
  match s with
  | EmptyString => EmptyString
  | String c r =>
      let r' := trimEnd r in
      if isWhiteSpace c && isEmpty r' then EmptyString else String c r'
  end.

(** [s.trim()]. *)
Definition trim (s : string) : string := trimEnd (trimStart s).

(** Truthiness of a string: the empty string is the only falsy one. *)
Definition truthy (s : string) : bool := negb (isEmpty s).

(** [a || b] on strings. *)
Definition or (a b : string) : string := if truthy a then a else b.

(** [s.includes(t)]. *)
Fixpoint includes (s t : string) : bool :=
  String.prefix t s ||
  match s with
  | EmptyString => false
  | String _ r => includes r t
  end.

(** A string made of white space only (the empty string included). *)
Fixpoint blank (s : string) : bool :=
  match s with
  | EmptyString => true
  | String c r => isWhiteSpace c && blank r
  end.

End Js.

(* ------------------------------------------------------------------ *)
(** ** Exceptions *)

(** What a [catch (error)] clause receives: an [Error] object with its
    message, or some other thrown value. *)
Inductive Thrown : Type :=
| ErrorObj (message : string)
| NonError.

Inductive Result (A : Type) : Type :=
| Ok (a : A)
| Throw (e : Thrown).
Arguments Ok {A} a.
Arguments Throw {A} e.

Definition raises {A} (r : Result A) : bool :=
  match r with Ok _ => false | Throw _ => true end.

(* ------------------------------------------------------------------ *)
(** ** Session state ([OmniChatState]) *)

Inductive VoiceProvider : Type := vogent | vapi | ultravox.

Record TranscriptEntry : Type := mkEntry { role : string; text : string }.

Record OmniChatState : Type := mkState {
  isConnected : bool;
  isConnecting : bool;
  status : string;
  statusMessage : string;
  transcripts : list TranscriptEntry;
  callId : option string;
  error : option string;
  isMuted : bool;
  provider : VoiceProvider
}.

(** The [useState] initial value of [useOmniChat]. *)
Definition initialState (p : VoiceProvider) : OmniChatState :=
  {| isConnected := false; isConnecting := false;
     status := "disconnected"; statusMessage := "Disconnected";
     transcripts := []; callId := None; error := None; isMuted := false;
     provider := p |}.

(** The canonical status enumeration of the specification. *)
Definition canonicalStatuses : list string :=
  ["disconnected"; "connecting"; "connected"; "listening"; "thinking";
   "speaking"; "error"].

Definition isActivity (s : string) : bool :=
  existsb (String.eqb s) ["listening"; "thinking"; "speaking"].

(* ------------------------------------------------------------------ *)
(** ** Provider objects held in refs, and the hook instance *)

(** [new VogentCall({ sessionId, dialId, token })]. *)
Record VogentCall : Type := mkVogentCall {
  vc_sessionId : string; vc_dialId : string; vc_token : string
}.

(** [new Vapi(publicKey)]. *)
Record VapiClient : Type := mkVapi { vapi_publicKey : string }.

(** An entry of a provider's raw transcript array: [{ text, speaker }]. *)
Record RawTranscript : Type := mkRaw { t_text : string; t_speaker : string }.

(** [new UltravoxSession()]; [us_transcripts] is the [transcripts] array the
    live session object holds. *)
Record UltravoxSession : Type := mkSession { us_transcripts : list RawTranscript }.

(** One instance of [useOmniChat]: the React state, the refs of the three
    adapters, the number of provider connection objects constructed so far
    (one per [new VogentCall], [new Vapi], [new UltravoxSession]) and the
    lines written with [console.error]. *)
Record Hook : Type := mkHook {
  state : OmniChatState;
  callRef : option VogentCall;
  transcriptUnsubscribeRef : bool;
  vapiRef : option VapiClient;
  sessionRef : option UltravoxSession;
  constructed : nat;
  console : list string
}.

Definition initialHook (p : VoiceProvider) : Hook :=
  {| state := initialState p; callRef := None; transcriptUnsubscribeRef := false;
     vapiRef := None; sessionRef := None; constructed := 0; console := [] |}.

(** ** Effects: hook state threaded through code that may throw *)

Definition Eff (A : Type) : Type := Hook -> Hook * Result A.

Definition ret {A} (a : A) : Eff A := fun h => (h, Ok a).
Definition throw {A} (e : Thrown) : Eff A := fun h => (h, Throw e).

Definition bindE {A B} (m : Eff A) (k : A -> Eff B) : Eff B :=
  fun h => match m h with
           | (h', Ok a) => k a h'
           | (h', Throw e) => (h', Throw e)
           end.

Notation "x <- m ;; k" := (bindE m (fun x => k))
  (at level 61, m at next level, right associativity).
Notation "m ;;; k" := (bindE m (fun _ => k))
  (at level 61, right associativity).

(** [await p] for a promise of the environment whose outcome is [r]. *)
Definition await {A} (r : Result A) : Eff A := fun h => (h, r).

(** [try { m } catch (e) { handler e }]. *)
Definition tryCatch {A} (m : Eff A) (handler : Thrown -> Eff A) : Eff A :=
  fun h => match m h with
           | (h', Ok a) => (h', Ok a)
           | (h', Throw e) => handler e h'
           end.

(** [try { m } finally { fin }]. *)
Definition tryFinally {A} (m : Eff A) (fin : Eff unit) : Eff A :=
  fun h => match m h with
           | (h', r) => match fin h' with
                        | (h'', Ok _) => (h'', r)
                        | (h'', Throw e) => (h'', Throw e)
                        end
           end.

(** [setState(prev => f prev)]. *)
Definition setState (f : OmniChatState -> OmniChatState) : Eff unit :=
  fun h => ({| state := f (state h); callRef := callRef h;
               transcriptUnsubscribeRef := transcriptUnsubscribeRef h;
               vapiRef := vapiRef h; sessionRef := sessionRef h;
               constructed := constructed h; console := console h |}, Ok tt).

(** [console.error(line)]. *)
Definition consoleError (line : string) : Eff unit :=
  fun h => ({| state := state h; callRef := callRef h;
               transcriptUnsubscribeRef := transcriptUnsubscribeRef h;
               vapiRef := vapiRef h; sessionRef := sessionRef h;
               constructed := constructed h; console := console h ++ [line] |}, Ok tt).

Definition setCallRef (c : option VogentCall) (built : nat) : Eff unit :=
  fun h => ({| state := state h; callRef := c;
               transcriptUnsubscribeRef := transcriptUnsubscribeRef h;
               vapiRef := vapiRef h; sessionRef := sessionRef h;
               constructed := constructed h + built; console := console h |}, Ok tt).

Definition setTranscriptUnsubscribeRef (b : bool) : Eff unit :=
  fun h => ({| state := state h; callRef := callRef h;
               transcriptUnsubscribeRef := b;
               vapiRef := vapiRef h; sessionRef := sessionRef h;
               constructed := constructed h; console := console h |}, Ok tt).

Definition setVapiRef (c : option VapiClient) (built : nat) : Eff unit :=
  fun h => ({| state := state h; callRef := callRef h;
               transcriptUnsubscribeRef := transcriptUnsubscribeRef h;
               vapiRef := c; sessionRef := sessionRef h;
               constructed := constructed h + built; console := console h |}, Ok tt).

Definition setSessionRef (c : option UltravoxSession) (built : nat) : Eff unit :=
  fun h => ({| state := state h; callRef := callRef h;
               transcriptUnsubscribeRef := transcriptUnsubscribeRef h;
               vapiRef := vapiRef h; sessionRef := c;
               constructed := constructed h + built; console := console h |}, Ok tt).

(** The message a [catch (error)] of [startCall] stores:
    [error instanceof Error ? error.message : "Failed to start call"]. *)
Definition startErrorMessage (e : Thrown) : string :=
  match e with
  | ErrorObj m => m
  | NonError => "Failed to start call"
  end.

(** ** The caller's options *)

(** The part of the hook's [options] that [startCall] uses: the callback
    [onError].  A callback is given by what it does when called with an
    [Error] of a given message: the lines it writes with [console.error] and
    whether it returns or throws.  [None] when the caller passes none. *)
Record Options : Type := mkOptions {
  onError : option (string -> list string * Result unit)
}.

(** [options.onError?.(error instanceof Error ? error : new Error(errorMessage))]:
    in both cases the callback receives an [Error] whose message is
    [errorMessage]. *)
Definition callOnError (options : Options) (errorMessage : string) : Eff unit :=
  fun h =>
    match onError options with
    | None => (h, Ok tt)
    | Some callback =>
        ({| state := state h; callRef := callRef h;
            transcriptUnsubscribeRef := transcriptUnsubscribeRef h;
            vapiRef := vapiRef h; sessionRef := sessionRef h;
            constructed := constructed h;
            console := (console h ++ fst (callback errorMessage))%list |},
         snd (callback errorMessage))
    end.

(** ** Environment of a call start and of a call end *)

(** The body of the answer of [POST /api/omni-voice]. *)
Record Credentials : Type := mkCreds {
  sessionId : string; dialId : string; dialToken : string;
  joinUrl : string; credCallId : string
}.

Record HttpResponse : Type := mkResponse {
  httpStatus : Z;
  bodyText : string;
  bodyJson : Result Credentials
}.

(** [response.ok]: a status in the range 200-299. *)
Definition ok (r : HttpResponse) : bool :=
  ((200 <=? httpStatus r) && (httpStatus r <=? 299))%Z.

(** Outcomes of the awaited operations of one [startCall]:
    the dynamic SDK import, the session request, the SDK's start
    ([call.start()], [vapi.start(assistantId)] with the id of the call it
    returns, [session.joinCall(joinUrl)]) and Vogent's [call.connectAudio()]. *)
Record StartEnv : Type := mkStartEnv {
  sdkImport : Result unit;
  sessionResponse : Result HttpResponse;
  sdkStart : Result (option string);
  sdkConnectAudio : Result unit;
  vapiPublicKey : string
}.

(** Outcomes of the operations of one [endCall]: the transcript
    unsubscription, the SDK's own teardown ([hangup], [stop], [leaveCall])
    and the [DELETE /api/omni-voice] request. *)
Record EndEnv : Type := mkEndEnv {
  unsubscribe : Result unit;
  sdkTeardown : Result unit;
  deleteRequest : Result unit
}.

(* ------------------------------------------------------------------ *)
(** ** Shared pieces of the three adapters *)

(** The guard [if (state.isConnecting || state.isConnected) return;]. *)
Definition guard (st : OmniChatState) : bool := isConnecting st || isConnected st.

(** [{ ...prev, isConnecting: true, error: null }]. *)
Definition beginConnecting (prev : OmniChatState) : OmniChatState :=
  {| isConnected := isConnected prev; isConnecting := true;
     status := status prev; statusMessage := statusMessage prev;
     transcripts := transcripts prev; callId := callId prev;
     error := None; isMuted := isMuted prev; provider := provider prev |}.

(** [{ ...prev, isConnecting: false, error: errorMessage }]. *)
Definition startFailed (errorMessage : string) (prev : OmniChatState) : OmniChatState :=
  {| isConnected := isConnected prev; isConnecting := false;
     status := status prev; statusMessage := statusMessage prev;
     transcripts := transcripts prev; callId := callId prev;
     error := Some errorMessage; isMuted := isMuted prev; provider := provider prev |}.

(** The [catch] block of the three [startCall]: the failure update, then
    the caller's callback. *)
Definition startCatch (options : Options) (e : Thrown) : Eff unit :=
  setState (startFailed (startErrorMessage e)) ;;;
  callOnError options (startErrorMessage e).

(** [{ ...prev, transcripts }]. *)
Definition withTranscripts (ts : list TranscriptEntry) (prev : OmniChatState)
  : OmniChatState :=
  {| isConnected := isConnected prev; isConnecting := isConnecting prev;
     status := status prev; statusMessage := statusMessage prev;
     transcripts := ts; callId := callId prev;
     error := error prev; isMuted := isMuted prev; provider := provider prev |}.

(** [if (state.callId)]: a call id that is neither [null] nor empty. *)
Definition hasCallId (st : OmniChatState) : bool :=
  match callId st with
  | Some id => Js.truthy id
  | None => false
  end.

(* ------------------------------------------------------------------ *)
(** ** Vogent adapter ([useVogentProvider]) *)

(** [type VogentStatus = "connecting" | "connected" | "ended" | "error"]. *)
Inductive VogentStatus : Type :=
| VsConnecting | VsConnected | VsEnded | VsError.

Definition VogentStatus_str (s : VogentStatus) : string :=
  match s with
  | VsConnecting => "connecting"
  | VsConnected => "connected"
  | VsEnded => "ended"
  | VsError => "error"
  end.

Definition getVogentStatusMessage (status : string) : string :=
  if status =? "connecting" then "Connecting..."
  else if status =? "connected" then "Connected"
  else if status =? "ended" then "Call Ended"
  else if status =? "error" then "Error"
  else "Unknown".

(** The role given to a raw speaker tag. *)
Definition vogentRole (speaker : string) : string :=
  let speaker := Js.toUpperCase speaker in
  if (speaker =? "HUMAN") || (speaker =? "USER") then "user" else "assistant".

(** The filter predicate [t.text && t.text.trim().length > 0]. *)
Definition vogentKeeps (t : RawTranscript) : bool :=
  Js.truthy (t_text t) && Nat.ltb 0 (String.length (Js.trim (t_text t))).

Definition vogentFormat (transcript : list RawTranscript) : list TranscriptEntry :=
  map (fun t => {| role := vogentRole (t_speaker t); text := t_text t |})
      (filter vogentKeeps transcript).

(** [handleTranscriptUpdate]: the state update it performs. *)
Definition handleTranscriptUpdate (transcript : list RawTranscript)
  : OmniChatState -> OmniChatState :=
  withTranscripts (vogentFormat transcript).

(** The [call.on("status", ...)] listener: the state update it performs. *)
Definition vogentOnStatus (raw : string) (prev : OmniChatState) : OmniChatState :=
  let normalizedStatus := Js.toLowerCase raw in
  let connected := normalizedStatus =? "connected" in
  {| isConnected := connected;
     isConnecting := if connected then false else isConnecting prev;
     status := normalizedStatus;
     statusMessage := getVogentStatusMessage normalizedStatus;
     transcripts := transcripts prev; callId := callId prev;
     error := error prev; isMuted := isMuted prev; provider := provider prev |}.

(** The update after [await call.connectAudio()]. *)
Definition vogentStarted (dialId : string) (prev : OmniChatState) : OmniChatState :=
  {| isConnected := true; isConnecting := false;
     status := "connected"; statusMessage := statusMessage prev;
     transcripts := transcripts prev; callId := Some dialId;
     error := error prev; isMuted := isMuted prev; provider := provider prev |}.

(** What [startCall] does after entering the connecting state. *)
Definition vogentStartRest (options : Options) (env : StartEnv) : Eff unit :=
  tryCatch
    (await (sdkImport env) ;;;
     response <- await (sessionResponse env) ;;
     (if ok response then ret tt else throw (ErrorObj (bodyText response))) ;;;
     creds <- await (bodyJson response) ;;
     setCallRef (Some {| vc_sessionId := sessionId creds;
                         vc_dialId := dialId creds;
                         vc_token := dialToken creds |}) 1 ;;;
     setTranscriptUnsubscribeRef true ;;;
     await (sdkStart env) ;;;
     await (sdkConnectAudio env) ;;;
     setState (vogentStarted (dialId creds)))
    (startCatch options).

(** [startCall] past its guard: the update that enters the connecting state,
    then the rest. *)
Definition vogentStartBody (options : Options) (env : StartEnv) : Eff unit :=
  setState beginConnecting ;;; vogentStartRest options env.

(** [startCall]; [rendered] is the state of the render that created the
    callback, the [state] its guard reads, while the updates act on the
    current state of the hook. *)
Definition vogentStartCall (rendered : OmniChatState) (options : Options)
                           (env : StartEnv) : Eff unit :=
  fun h => if guard rendered then (h, Ok tt) else vogentStartBody options env h.

Definition vogentEndCall (env : EndEnv) : Eff unit :=
  fun h =>
    match callRef h with
    | None => (h, Ok tt)
    | Some _ =>
        tryFinally
          (tryCatch
             ((if transcriptUnsubscribeRef h
               then await (unsubscribe env) else ret tt) ;;;
              setTranscriptUnsubscribeRef false ;;;
              await (sdkTeardown env) ;;;
              (if hasCallId (state h)
               then await (deleteRequest env) else ret tt))
             (fun _ => consoleError "Error ending Vogent call:"))
          (setCallRef None 0) h
    end.

(* ------------------------------------------------------------------ *)
(** ** Vapi adapter ([useVapiProvider]) *)

(** A message of the [message] event, as far as the listener reads it. *)
Record VapiMessage : Type := mkVapiMessage {
  m_type : string;
  m_transcriptType : option string;
  m_role : option string;
  m_transcript : option string;
  m_content : option string
}.

(** [{ ...prev, status, statusMessage: message }]. *)
Definition updateStatus (s message : string) (prev : OmniChatState) : OmniChatState :=
  {| isConnected := isConnected prev; isConnecting := isConnecting prev;
     status := s; statusMessage := message;
     transcripts := transcripts prev; callId := callId prev;
     error := error prev; isMuted := isMuted prev; provider := provider prev |}.

Definition vapiOnCallStart (prev : OmniChatState) : OmniChatState :=
  let prev := updateStatus "connected" "Connected - Ready" prev in
  {| isConnected := true; isConnecting := false;
     status := status prev; statusMessage := statusMessage prev;
     transcripts := transcripts prev; callId := callId prev;
     error := error prev; isMuted := isMuted prev; provider := provider prev |}.

Definition vapiOnCallEnd (prev : OmniChatState) : OmniChatState :=
  let prev := updateStatus "disconnected" "Disconnected" prev in
  {| isConnected := false; isConnecting := isConnecting prev;
     status := status prev; statusMessage := statusMessage prev;
     transcripts := transcripts prev; callId := None;
     error := error prev; isMuted := isMuted prev; provider := provider prev |}.

Definition vapiOnSpeechStart : OmniChatState -> OmniChatState :=
  updateStatus "listening" "Listening...".
Definition vapiOnSpeechEnd : OmniChatState -> OmniChatState :=
  updateStatus "thinking" "Thinking...".

(** [o || d] where [o] may be [undefined]. *)
Definition orUndefined (o : option string) (d : string) : string :=
  match o with
  | Some s => Js.or s d
  | None => d
  end.

Definition isString (o : option string) (v : string) : bool :=
  match o with
  | Some s => s =? v
  | None => false
  end.

(** [message.role === "user" ? "user" : "assistant"]. *)
Definition vapiRole (m : VapiMessage) : string :=
  if isString (m_role m) "user" then "user" else "assistant".

(** [message.transcript || message.content || ""]. *)
Definition vapiText (m : VapiMessage) : string :=
  orUndefined (m_transcript m) (orUndefined (m_content m) "").

(** The transcript part of the [message] listener. *)
Definition vapiOnMessage (m : VapiMessage) (prev : OmniChatState) : OmniChatState :=
  if (m_type m =? "transcript") && isString (m_transcriptType m) "final" then
    if negb (Js.truthy (Js.trim (vapiText m))) then prev
    else withTranscripts
           (transcripts prev ++ [{| role := vapiRole m; text := vapiText m |}]) prev
  else prev.

(** The [error] listener; [errorMessage] is
    [error?.message || error?.error?.message || ""]. *)
Definition vapiOnError (errorMessage : string) (prev : OmniChatState) : OmniChatState :=
  if Js.includes (Js.toLowerCase errorMessage) "meeting ended"
     || Js.includes (Js.toLowerCase errorMessage) "ejection"
  then prev
  else if Js.truthy errorMessage then
    {| isConnected := isConnected prev; isConnecting := isConnecting prev;
       status := status prev; statusMessage := statusMessage prev;
       transcripts := transcripts prev; callId := callId prev;
       error := Some errorMessage; isMuted := isMuted prev; provider := provider prev |}
  else prev.

(** [{ ...prev, callId: call.id }]. *)
Definition withCallId (id : string) (prev : OmniChatState) : OmniChatState :=
  {| isConnected := isConnected prev; isConnecting := isConnecting prev;
     status := status prev; statusMessage := statusMessage prev;
     transcripts := transcripts prev; callId := Some id;
     error := error prev; isMuted := isMuted prev; provider := provider prev |}.

Definition vapiStartRest (options : Options) (env : StartEnv) : Eff unit :=
  tryCatch
    (await (sdkImport env) ;;;
     setVapiRef (Some {| vapi_publicKey := vapiPublicKey env |}) 1 ;;;
     call <- await (sdkStart env) ;;
     match call with
     | Some id => if Js.truthy id then setState (withCallId id) else ret tt
     | None => ret tt
     end)
    (startCatch options).

(** [startCall] past its guard: the update that enters the connecting state,
    then the rest. *)
Definition vapiStartBody (options : Options) (env : StartEnv) : Eff unit :=
  setState beginConnecting ;;; vapiStartRest options env.

(** [startCall]; [rendered] is the state of the render that created the
    callback, the [state] its guard reads, while the updates act on the
    current state of the hook. *)
Definition vapiStartCall (rendered : OmniChatState) (options : Options)
                           (env : StartEnv) : Eff unit :=
  fun h => if guard rendered then (h, Ok tt) else vapiStartBody options env h.

(** The message the [catch] of [endCall] inspects: [error?.message || ""]. *)
Definition thrownMessage (e : Thrown) : string :=
  match e with
  | ErrorObj m => m
  | NonError => ""
  end.

Definition vapiEndCall (env : EndEnv) : Eff unit :=
  fun h =>
    match vapiRef h with
    | None => (h, Ok tt)
    | Some _ =>
        tryFinally
          (tryCatch
             (await (sdkTeardown env))
             (fun e =>
                let errorMessage := thrownMessage e in
                if negb (Js.includes (Js.toLowerCase errorMessage) "meeting ended")
                   && negb (Js.includes (Js.toLowerCase errorMessage) "ejection")
                then consoleError "Error ending Vapi call:"
                else ret tt))
          (setVapiRef None 0) h
    end.

(* ------------------------------------------------------------------ *)
(** ** Ultravox adapter ([useUltravoxProvider]) *)

(** Modelled from the spec: the enumeration [UltravoxSessionStatus] is
    declared by the [ultravox-client] package, which is not part of the
    sources.  Its members are the seven the adapter's [switch] lists; the
    string each member stands for is its lower-case name, the values the
    voice panel compares the status with (["idle"], ["listening"], ...). *)
Inductive UltravoxSessionStatus : Type :=
| DISCONNECTED | DISCONNECTING | CONNECTING | IDLE | LISTENING | THINKING | SPEAKING.

(** [String(status)]. *)
Definition UltravoxSessionStatus_str (s : UltravoxSessionStatus) : string :=
  match s with
  | DISCONNECTED => "disconnected"
  | DISCONNECTING => "disconnecting"
  | CONNECTING => "connecting"
  | IDLE => "idle"
  | LISTENING => "listening"
  | THINKING => "thinking"
  | SPEAKING => "speaking"
  end.

Definition getUltravoxStatusMessage (s : UltravoxSessionStatus) : string :=
  match s with
  | DISCONNECTED => "Disconnected"
  | DISCONNECTING => "Disconnecting..."
  | CONNECTING => "Connecting..."
  | IDLE => "Connected - Ready"
  | LISTENING => "Listening..."
  | THINKING => "Thinking..."
  | SPEAKING => "Speaking..."
  end.

(** [status !== DISCONNECTED && status !== DISCONNECTING]. *)
Definition ultravoxLive (s : UltravoxSessionStatus) : bool :=
  match s with
  | DISCONNECTED | DISCONNECTING => false
  | _ => true
  end.

(** The ["status"] listener: the state update it performs. *)
Definition ultravoxOnStatus (s : UltravoxSessionStatus) (prev : OmniChatState)
  : OmniChatState :=
  {| isConnected := ultravoxLive s; isConnecting := isConnecting prev;
     status := UltravoxSessionStatus_str s;
     statusMessage := getUltravoxStatusMessage s;
     transcripts := transcripts prev; callId := callId prev;
     error := error prev; isMuted := isMuted prev; provider := provider prev |}.

(** The role given to a raw speaker tag of the session's transcripts. *)
Definition ultravoxRole (speaker : string) : string :=
  if Js.toLowerCase speaker =? "user" then "user" else "assistant".

Definition ultravoxFormat (ts : list RawTranscript) : list TranscriptEntry :=
  map (fun t => {| role := ultravoxRole (t_speaker t); text := t_text t |}) ts.

(** [updateTranscripts], the ["transcripts"] listener; [session] is
    [sessionRef.current]. *)
Definition updateTranscripts (session : option UltravoxSession) (prev : OmniChatState)
  : OmniChatState :=
  match session with
  | None => prev
  | Some s => withTranscripts (ultravoxFormat (us_transcripts s)) prev
  end.

(** The update after [await session.joinCall(joinUrl)]. *)
Definition ultravoxStarted (id : string) (prev : OmniChatState) : OmniChatState :=
  {| isConnected := true; isConnecting := false;
     status := status prev; statusMessage := statusMessage prev;
     transcripts := transcripts prev; callId := Some id;
     error := error prev; isMuted := isMuted prev; provider := provider prev |}.

Definition ultravoxStartRest (options : Options) (env : StartEnv) : Eff unit :=
  tryCatch
    (await (sdkImport env) ;;;
     response <- await (sessionResponse env) ;;
     (if ok response then ret tt else throw (ErrorObj (bodyText response))) ;;;
     creds <- await (bodyJson response) ;;
     setSessionRef (Some {| us_transcripts := [] |}) 1 ;;;
     await (sdkStart env) ;;;
     setState (ultravoxStarted (credCallId creds)))
    (startCatch options).

(** [startCall] past its guard: the update that enters the connecting state,
    then the rest. *)
Definition ultravoxStartBody (options : Options) (env : StartEnv) : Eff unit :=
  setState beginConnecting ;;; ultravoxStartRest options env.

(** [startCall]; [rendered] is the state of the render that created the
    callback, the [state] its guard reads, while the updates act on the
    current state of the hook. *)
Definition ultravoxStartCall (rendered : OmniChatState) (options : Options)
                           (env : StartEnv) : Eff unit :=
  fun h => if guard rendered then (h, Ok tt) else ultravoxStartBody options env h.

Definition ultravoxEndCall (env : EndEnv) : Eff unit :=
  fun h =>
    match sessionRef h with
    | None => (h, Ok tt)
    | Some _ =>
        tryFinally
          (tryCatch
             (await (sdkTeardown env) ;;;
              (if hasCallId (state h)
               then await (deleteRequest env) else ret tt))
             (fun _ => consoleError "Error ending Ultravox call:"))
          (setSessionRef None 0) h
    end.

(* ------------------------------------------------------------------ *)
(** ** The unified controller ([useOmniChat]) *)

Record Adapter : Type := mkAdapter {
  adapterStartCall : OmniChatState -> Options -> StartEnv -> Eff unit;
  adapterEndCall : EndEnv -> Eff unit
}.

Definition getProvider (p : VoiceProvider) : Adapter :=
  match p with
  | vogent => {| adapterStartCall := vogentStartCall; adapterEndCall := vogentEndCall |}
  | vapi => {| adapterStartCall := vapiStartCall; adapterEndCall := vapiEndCall |}
  | ultravox =>
      {| adapterStartCall := ultravoxStartCall; adapterEndCall := ultravoxEndCall |}
  end.

(** [useOmniChat.startCall], invoked from the render whose state is
    [rendered]. *)
Definition startCall (p : VoiceProvider) (rendered : OmniChatState)
                     (options : Options) (env : StartEnv) : Eff unit :=
  adapterStartCall (getProvider p) rendered options env.

(** The reset of [endCall]. *)
Definition resetState (prev : OmniChatState) : OmniChatState :=
  {| isConnected := false; isConnecting := false;
     status := "disconnected"; statusMessage := "Disconnected";
     transcripts := []; callId := None; error := None; isMuted := false;
     provider := provider prev |}.

Definition endCall (p : VoiceProvider) (env : EndEnv) : Eff unit :=
  adapterEndCall (getProvider p) env ;;;
  setState resetState.

(** The part of [startCall] that runs once it has entered the connecting
    state (from its first [await] on). *)
Definition startRest (p : VoiceProvider) (options : Options) (env : StartEnv)
  : Eff unit :=
  match p with
  | vogent => vogentStartRest options env
  | vapi => vapiStartRest options env
  | ultravox => ultravoxStartRest options env
  end.

(** A start in which every awaited operation succeeds. *)
Definition startSucceeds (env : StartEnv) : bool :=
  negb (raises (sdkImport env))
  && match sessionResponse env with
     | Ok r => ok r && negb (raises (bodyJson r))
     | Throw _ => false
     end
  && negb (raises (sdkStart env))
  && negb (raises (sdkConnectAudio env)).

(* ------------------------------------------------------------------ *)
(** ** Event sequences *)

(** What the provider's SDK delivers to the listeners of an adapter. *)
Inductive Event : Type :=
| VogentStatusEvent (s : VogentStatus)
| VogentTranscriptEvent (transcript : list RawTranscript)
| VapiCallStart
| VapiCallEnd
| VapiSpeechStart
| VapiSpeechEnd
| VapiMessageEvent (m : VapiMessage)
| VapiErrorEvent (errorMessage : string)
| UltravoxStatusEvent (s : UltravoxSessionStatus)
| UltravoxTranscriptsEvent (session : option UltravoxSession).

(** The state update a listener of adapter [p] performs on an event; an
    adapter has no listener for the events of another provider. *)
Definition onEvent (p : VoiceProvider) (e : Event) : OmniChatState -> OmniChatState :=
  match p, e with
  | vogent, VogentStatusEvent s => vogentOnStatus (VogentStatus_str s)
  | vogent, VogentTranscriptEvent t => handleTranscriptUpdate t
  | vapi, VapiCallStart => vapiOnCallStart
  | vapi, VapiCallEnd => vapiOnCallEnd
  | vapi, VapiSpeechStart => vapiOnSpeechStart
  | vapi, VapiSpeechEnd => vapiOnSpeechEnd
  | vapi, VapiMessageEvent m => vapiOnMessage m
  | vapi, VapiErrorEvent msg => vapiOnError msg
  | ultravox, UltravoxStatusEvent s => ultravoxOnStatus s
  | ultravox, UltravoxTranscriptsEvent s => updateTranscripts s
  | _, _ => fun prev => prev
  end.

(** Every state update of a session: those of [startCall] (entering, the
    success update with the call id, the failure update), those of the
    listeners, and the reset of [endCall]. *)
Inductive Action : Type :=
| StartBegin
| StartSucceeded (id : string)
| StartFailed (errorMessage : string)
| Listener (e : Event)
| EndReset.

Definition applyAction (p : VoiceProvider) (a : Action)
  : OmniChatState -> OmniChatState :=
  match a with
  | StartBegin => beginConnecting
  | StartSucceeded id =>
      match p with
      | vogent => vogentStarted id
      | vapi => withCallId id
      | ultravox => ultravoxStarted id
      end
  | StartFailed msg => startFailed msg
  | Listener e => onEvent p e
  | EndReset => resetState
  end.

(** The states a session goes through, one per action. *)
Fixpoint run (p : VoiceProvider) (acts : list Action) (st : OmniChatState)
  : list OmniChatState :=
  match acts with
  | [] => []
  | a :: rest => let st' := applyAction p a st in st' :: run p rest st'
  end.

(** [connectedFirst seen ss]: in the status sequence [ss], each of
    listening, thinking, speaking comes after a "connected" of the same call
    ([seen] tells whether one came before [ss]).  A "disconnected" ends the
    call: what follows must reach "connected" again. *)
Fixpoint connectedFirst (seen : bool) (ss : list string) : bool :=
  match ss with
  | [] => true
  | s :: rest =>
      if isActivity s then seen && connectedFirst seen rest
      else if s =? "disconnected" then connectedFirst false rest
      else connectedFirst (seen || (s =? "connected")) rest
  end.

(** [callStartFirst started acts]: the provider delivers no speech event
    outside a call, that is before the [call-start] of a call or after its
    [call-end] or the reset of [endCall] ([started] tells whether a call is
    under way before [acts]). *)
Fixpoint callStartFirst (started : bool) (acts : list Action) : bool :=
  match acts with
  | [] => true
  | Listener VapiCallStart :: rest => callStartFirst true rest
  | Listener VapiCallEnd :: rest => callStartFirst false rest
  | EndReset :: rest => callStartFirst false rest
  | Listener VapiSpeechStart :: rest => started && callStartFirst started rest
  | Listener VapiSpeechEnd :: rest => started && callStartFirst started rest
  | _ :: rest => callStartFirst started rest
  end.

(* ------------------------------------------------------------------ *)
(** ** The server-side provider library ([lib/ai/omni-voice.ts]) *)

Module OmniVoice.

(** A part of a chat message: [{ type, text? }]. *)
Record Part : Type := mkPart { type : string; text : option string }.

Record ChatMessage : Type := mkMessage { role : string; parts : list Part }.

(** An entry of the message list sent to a provider: [{ role, content }]. *)
Record RoleContent : Type := mkRoleContent { rc_role : string; rc_content : string }.

(** The [find] predicate [p.type === "text" && p.text]. *)
Definition isTextPart (p : Part) : bool :=
  (type p =? "text") &&
  match text p with
  | Some t => Js.truthy t
  | None => false
  end.

(** [msg.parts.find(...)?.text], [None] when it is missing or empty
    (the case in which the formatters return [null]). *)
Definition textPayload (msg : ChatMessage) : option string :=
  match find isTextPart (parts msg) with
  | Some p =>
      match text p with
      | Some t => if Js.truthy t then Some t else None
      | None => None
      end
  | None => None
  end.

(** [.filter(m => m !== null)]. *)
Fixpoint dropNull {A} (l : list (option A)) : list A :=
  match l with
  | [] => []
  | Some a :: r => a :: dropNull r
  | None :: r => dropNull r
  end.

Definition vapiRoleOf (r : string) : string :=
  if r =? "user" then "user" else if r =? "system" then "system" else "assistant".

Definition formatMessagesForVapi (messages : list ChatMessage) : list RoleContent :=
  dropNull
    (map (fun msg =>
            match textPayload msg with
            | None => None
            | Some t => Some {| rc_role := vapiRoleOf (role msg); rc_content := t |}
            end) messages).

Definition ultravoxRoleOf (r : string) : string :=
  if r =? "user" then "user" else "assistant".

Definition formatMessagesForUltravox (messages : list ChatMessage) : list RoleContent :=
  dropNull
    (map (fun msg =>
            match textPayload msg with
            | None => None
            | Some t => Some {| rc_role := ultravoxRoleOf (role msg); rc_content := t |}
            end) messages).

(** The parts of the call configurations the message lists depend on
    (model, voice and temperature only pass through). *)
Record CallConfig : Type := mkConfig {
  systemPrompt : string;
  messages : option (list ChatMessage)
}.

(** [assistant.model.messages] of the body [createVapiCall] posts. *)
Definition createVapiCall_messages (config : CallConfig) : list RoleContent :=
  {| rc_role := "system"; rc_content := systemPrompt config |}
  :: match messages config with
     | Some ms => formatMessagesForVapi ms
     | None => []
     end.

(** The body [createUltravoxCall] posts: the prompt in its own field, and
    [initialMessages] only when the formatted history is not empty. *)
Record UltravoxBody : Type := mkUltravoxBody {
  body_systemPrompt : string;
  body_initialMessages : option (list RoleContent)
}.

Definition createUltravoxCall_body (config : CallConfig) : UltravoxBody :=
  let initialMessages :=
    match messages config with
    | Some ms => Some (formatMessagesForUltravox ms)
    | None => None
    end in
  {| body_systemPrompt := systemPrompt config;
     body_initialMessages :=
       match initialMessages with
       | Some (m :: r) => Some (m :: r)
       | _ => None
       end |}.

Definition DEFAULT_SYSTEM_PROMPT : string :=
"You are an expert teaching assistant dedicated to helping students learn effectively.

Your approach:
- Ask probing questions to understand the student's current knowledge level
- Identify knowledge gaps and misconceptions
- Break down complex topics into digestible pieces
- Use analogies and real-world examples to explain concepts
- Encourage critical thinking rather than just giving answers
- Celebrate progress and provide constructive feedback
- Adapt your teaching style to the student's needs

When a student asks a question:
1. First assess what they already know about the topic
2. Identify any misconceptions
3. Build on their existing knowledge
4. Check for understanding before moving on

Use the web search tool when you need current information, statistics, or to verify facts.

Keep responses conversational and engaging. Speak naturally without markdown or lists since this is a voice conversation.".

(** The configuration the POST route builds for Vapi and Ultravox:
    [systemPrompt || DEFAULT_SYSTEM_PROMPT] and the request's messages. *)
Definition routeConfig (prompt : option string) (ms : option (list ChatMessage))
  : CallConfig :=
  {| systemPrompt := orUndefined prompt DEFAULT_SYSTEM_PROMPT; messages := ms |}.

(** *** Call termination *)

(** A [console.error] line: its text, with the status or the error it
    reports. *)
Inductive LogLine : Type :=
| LogStatus (line : string) (status : Z)
| LogThrown (line : string) (e : Thrown).

(** A server-side computation: the lines it logged and its outcome. *)
Definition Logged (A : Type) : Type := (list LogLine * Result A)%type.

(** [endVapiCall]; [response] is the outcome of the DELETE request. *)
Definition endVapiCall (response : Result HttpResponse) : Logged unit :=
  match response with
  | Ok r =>
      if negb (ok r) && negb (httpStatus r =? 404)%Z
      then ([LogStatus "Failed to end Vapi call:" (httpStatus r)], Ok tt)
      else ([], Ok tt)
  | Throw e => ([LogThrown "Failed to end Vapi call:" e], Ok tt)
  end.

(** [endUltravoxCall]. *)
Definition endUltravoxCall (response : Result HttpResponse) : Logged unit :=
  match response with
  | Ok r =>
      if negb (ok r) && negb (existsb (Z.eqb (httpStatus r)) [404; 410; 425]%Z)
      then ([LogStatus "Failed to end call" (httpStatus r)],
            Throw (ErrorObj "Failed to end call"))
      else ([], Ok tt)
  | Throw e => ([], Throw e)
  end.

Record Reply : Type := mkReply { replyStatus : Z; replyBody : string }.

Definition present (o : option string) : bool :=
  match o with
  | Some s => Js.truthy s
  | None => false
  end.

(** The [try] block of the DELETE handler, for an authenticated request
    with query parameters [provider], [callId] and [dialId]. *)
Definition deleteCall (provider callId dialId : option string)
                      (response : Result HttpResponse) : Logged Reply :=
  if negb (present provider) then ([], Ok (mkReply 400 "Provider required"))
  else if isString provider "vogent" then
    if negb (present dialId) then ([], Ok (mkReply 400 "Dial ID required"))
    else ([], Ok (mkReply 200 "Call ended"))
  else if isString provider "vapi" then
    if negb (present callId) then ([], Ok (mkReply 400 "Call ID required"))
    else match endVapiCall response with
         | (l, Ok _) => (l, Ok (mkReply 200 "Call ended"))
         | (l, Throw e) => (l, Throw e)
         end
  else if isString provider "ultravox" then
    if negb (present callId) then ([], Ok (mkReply 400 "Call ID required"))
    else match endUltravoxCall response with
         | (l, Ok _) => (l, Ok (mkReply 200 "Call ended"))
         | (l, Throw e) => (l, Throw e)
         end
  else ([], Ok (mkReply 400 ("Unknown provider: " ++ orUndefined provider ""))).

(** The DELETE handler: 401 without a session, 500 when the [try] block
    throws. *)
Definition DELETE (authenticated : bool) (provider callId dialId : option string)
                  (response : Result HttpResponse) : list LogLine * Reply :=
  if negb authenticated then ([], mkReply 401 "Unauthorized")
  else match deleteCall provider callId dialId response with
       | (l, Ok reply) => (l, reply)
       | (l, Throw e) =>
           ((l ++ [LogThrown "Failed to end voice call:" e])%list,
            mkReply 500 "Failed to end call")
       end.

End OmniVoice.


(* ------------------------------------------------------------------ *)
(** ** Mute and disposal ([toggleMute], [cleanup]) *)

(** [{ ...prev, isMuted }]. *)
Definition withMuted (b : bool) (prev : OmniChatState) : OmniChatState :=
  {| isConnected := isConnected prev; isConnecting := isConnecting prev;
     status := status prev; statusMessage := statusMessage prev;
     transcripts := transcripts prev; callId := callId prev;
     error := error prev; isMuted := b; provider := provider prev |}.

(** Outcomes of the SDK calls of one [toggleMute]: Vogent's [setPaused],
    the mute flag the Vapi or Ultravox object reports ([isMuted()],
    [isMicMuted]) and the call that changes it ([setMuted], [muteMic],
    [unmuteMic]). *)
Record MuteEnv : Type := mkMuteEnv {
  sdkSetPaused : Result unit;
  sdkMuted : bool;
  sdkSetMuted : Result unit
}.

Definition vogentToggleMute (env : MuteEnv) : Eff unit :=
  fun h =>
    match callRef h with
    | None => (h, Ok tt)
    | Some _ =>
        let newPausedState := negb (isMuted (state h)) in
        tryCatch
          (await (sdkSetPaused env) ;;; setState (withMuted newPausedState))
          (fun _ => consoleError "Error toggling mute:") h
    end.

Definition vapiToggleMute (env : MuteEnv) : Eff unit :=
  fun h =>
    match vapiRef h with
    | None => (h, Ok tt)
    | Some _ =>
        let currentlyMuted := sdkMuted env in
        (await (sdkSetMuted env) ;;;
         setState (withMuted (negb currentlyMuted))) h
    end.

Definition ultravoxToggleMute (env : MuteEnv) : Eff unit :=
  fun h =>
    match sessionRef h with
    | None => (h, Ok tt)
    | Some _ =>
        let currentlyMuted := sdkMuted env in
        (await (sdkSetMuted env) ;;;
         setState (withMuted (negb currentlyMuted))) h
    end.

(** [useOmniChat.toggleMute]: delegation to the active adapter. *)
Definition toggleMute (p : VoiceProvider) (env : MuteEnv) : Eff unit :=
  match p with
  | vogent => vogentToggleMute env
  | vapi => vapiToggleMute env
  | ultravox => ultravoxToggleMute env
  end.

(** The three [cleanup] functions.  [sdkTeardown] is the outcome of the
    call [hangup()], [stop()] or [leaveCall()] itself, [unsubscribe] that of
    the transcript unsubscription. *)
Definition vogentCleanup (env : EndEnv) : Eff unit :=
  (fun h => match callRef h with
            | Some _ => (await (sdkTeardown env) ;;; setCallRef None 0) h
            | None => (h, Ok tt)
            end) ;;;
  (fun h => if transcriptUnsubscribeRef h
            then await (unsubscribe env) h else (h, Ok tt)) ;;;
  setTranscriptUnsubscribeRef false.

Definition vapiCleanup (env : EndEnv) : Eff unit :=
  fun h =>
    match vapiRef h with
    | Some _ =>
        (tryCatch (await (sdkTeardown env)) (fun _ => ret tt) ;;;
         setVapiRef None 0) h
    | None => (h, Ok tt)
    end.

Definition ultravoxCleanup (env : EndEnv) : Eff unit :=
  fun h =>
    match sessionRef h with
    | Some _ => (await (sdkTeardown env) ;;; setSessionRef None 0) h
    | None => (h, Ok tt)
    end.

(** The cleanup of the unmount effect of [useOmniChat]: the three adapters
    in turn, each with the outcomes of its own SDK calls. *)
Definition unmountCleanup (envVogent envVapi envUltravox : EndEnv) : Eff unit :=
  vogentCleanup envVogent ;;; vapiCleanup envVapi ;;; ultravoxCleanup envUltravox.

(* ------------------------------------------------------------------ *)
(** ** Client-side tools of the Ultravox adapter *)

(** The answer of [POST /api/search] as the tool reads it: its status and
    the outcome of [response.json()] with the [summary] field. *)
Record SearchHttp : Type := mkSearchHttp {
  searchStatus : Z;
  searchJson : Result (option string)
}.

Definition searchOk (r : SearchHttp) : bool :=
  ((200 <=? searchStatus r) && (searchStatus r <=? 299))%Z.

(** [try { m } catch { handler }] for code that touches no hook state. *)
Definition catchResult {A} (m : Result A) (handler : Thrown -> Result A) : Result A :=
  match m with
  | Ok a => Ok a
  | Throw e => handler e
  end.

(** The [webSearch] tool implementation; [response] is the outcome of the
    request to the search route. *)
Definition webSearchTool (response : Result SearchHttp) : Result string :=
  catchResult
    (match response with
     | Throw e => Throw e
     | Ok r =>
         if negb (searchOk r) then Ok "Search failed. Please try again."
         else match searchJson r with
              | Throw e => Throw e
              | Ok summary => Ok (orUndefined summary "No results found.")
              end
     end)
    (fun _ => Ok "Search failed due to an error.").

Definition getCurrentMayorOfNewYorkTool : Result string := Ok "Himashi".

(* ------------------------------------------------------------------ *)
(** ** The search route ([app/(chat)/api/search/route.ts]) *)

Module SearchRoute.

(** A related topic and the answer of the instant-answer service, as far
    as the route reads them. *)
Record Topic : Type := mkTopic { Text : option string; FirstURL : option string }.

Record Data : Type := mkData {
  Abstract : option string;
  AbstractSource : option string;
  AbstractURL : option string;
  Answer : option string;
  Definition_ : option string;
  RelatedTopics : option (list Topic)
}.

Record TopicResult : Type := mkTopicResult { topicText : string; topicUrl : string }.

Record Results : Type := mkResults {
  abstract : string;
  abstractSource : string;
  abstractURL : string;
  answer : string;
  definition : string;
  relatedTopics : list TopicResult
}.

(** [(data.RelatedTopics || []).slice(0, 5).map(...).filter(t => t.text)]. *)
Definition extractTopics (topics : option (list Topic)) : list TopicResult :=
  filter (fun t => Js.truthy (topicText t))
         (map (fun topic => {| topicText := orUndefined (Text topic) "";
                               topicUrl := orUndefined (FirstURL topic) "" |})
              (firstn 5 (match topics with Some l => l | None => [] end))).

Definition extract (data : Data) : Results :=
  {| abstract := orUndefined (Abstract data) "";
     abstractSource := orUndefined (AbstractSource data) "";
     abstractURL := orUndefined (AbstractURL data) "";
     answer := orUndefined (Answer data) "";
     definition := orUndefined (Definition_ data) "";
     relatedTopics := extractTopics (RelatedTopics data) |}.

Definition summarize (results : Results) : string :=
  if Js.truthy (answer results) then answer results
  else if Js.truthy (abstract results)
  then abstract results ++ " (Source: " ++ abstractSource results ++ ")"
  else if Js.truthy (definition results) then definition results
  else if Nat.ltb 0 (List.length (relatedTopics results))
  then "Related information: "
       ++ String.concat ". " (map topicText (relatedTopics results))
  else "No specific results found. Try rephrasing the search query.".

(** The answer of the instant-answer service: its status and the outcome of
    [response.json()]. *)
Record Upstream : Type := mkUpstream { upStatus : Z; upData : Result Data }.

Definition upOk (r : Upstream) : bool :=
  ((200 <=? upStatus r) && (upStatus r <=? 299))%Z.

Inductive Reply : Type :=
| Plain (status : Z) (body : string)
| Json (summary : string) (results : Results).

(** The [try] block of the handler; [body] is the outcome of
    [request.json()] with the [query] field. *)
Definition search (body : Result (option string)) (response : Result Upstream)
  : Result Reply :=
  match body with
  | Throw e => Throw e
  | Ok query =>
      if negb (OmniVoice.present query) then Ok (Plain 400 "Query required")
      else match response with
           | Throw e => Throw e
           | Ok r =>
               if negb (upOk r) then Throw (ErrorObj "Search failed")
               else match upData r with
                    | Throw e => Throw e
                    | Ok data =>
                        let results := extract data in
                        Ok (Json (summarize results) results)
                    end
           end
  end.

Definition POST (authenticated : bool) (body : Result (option string))
                (response : Result Upstream) : list OmniVoice.LogLine * Reply :=
  if negb authenticated then ([], Plain 401 "Unauthorized")
  else match search body response with
       | Ok reply => ([], reply)
       | Throw e => ([OmniVoice.LogThrown "Search error:" e], Plain 500 "Search failed")
       end.

(** The reply as the [webSearch] tool receives it; [parseError] is what
    [response.json()] would throw on a text reply. *)
Definition asSearchHttp (parseError : Thrown) (reply : Reply) : SearchHttp :=
  match reply with
  | Plain code _ => {| searchStatus := code; searchJson := Throw parseError |}
  | Json summary _ => {| searchStatus := 200; searchJson := Ok (Some summary) |}
  end.

End SearchRoute.

(* ------------------------------------------------------------------ *)
(** ** Call creation ([lib/ai/omni-voice.ts]) and the POST handler *)

Module OmniVoiceCreate.

(** A parsed JSON object, read by field name. *)
Definition JsObject : Type := string -> option string.

(** The answer of a provider's call-creation endpoint: its status, its body
    as text and the outcome of [response.json()]. *)
Record Upstream : Type := mkUpstream {
  upStatus : Z;
  upText : string;
  upJson : Result JsObject
}.

Definition upOk (r : Upstream) : bool :=
  ((200 <=? upStatus r) && (upStatus r <=? 299))%Z.

Record VogentDialResult : Type := mkDial {
  dial_sessionId : option string;
  dial_dialId : option string;
  dial_dialToken : option string
}.

Record CallResult : Type := mkCall {
  call_joinUrl : option string;
  call_callId : option string
}.

(** What follows the [fetch] in the three creation functions: the error
    for an answer that is not ok, else the parsed body. *)
Definition parsed (prefix : string) (response : Result Upstream) : Result JsObject :=
  match response with
  | Throw e => Throw e
  | Ok r =>
      if negb (upOk r) then Throw (ErrorObj (prefix ++ upText r))
      else upJson r
  end.

Definition createVogentDial (response : Result Upstream) : Result VogentDialResult :=
  match parsed "Failed to create Vogent dial: " response with
  | Throw e => Throw e
  | Ok data =>
      Ok {| dial_sessionId := data "sessionId";
            dial_dialId := data "dialId";
            dial_dialToken := data "dialToken" |}
  end.

Definition createVapiCall (response : Result Upstream) : Result CallResult :=
  match parsed "Failed to create Vapi call: " response with
  | Throw e => Throw e
  | Ok data =>
      Ok {| call_joinUrl := Some (orUndefined (data "webCallUrl") "");
            call_callId := Some (orUndefined (data "id") "") |}
  end.

Definition createUltravoxCall (response : Result Upstream) : Result CallResult :=
  match parsed "Failed to create Ultravox call: " response with
  | Throw e => Throw e
  | Ok data =>
      Ok {| call_joinUrl := data "joinUrl"; call_callId := data "callId" |}
  end.

(** A reply of the POST handler: a text with its status, or the object
    given to [Response.json]. *)
Inductive Reply : Type :=
| TextReply (status : Z) (body : string)
| JsonReply (fields : list (string * option string)).

(** The [try] block of the POST handler; [provider] is the field of the
    request body, [callAgentId] the configured [VOGENT_CALL_AGENT_ID]. *)
Definition create (body : Result (option string)) (callAgentId : option string)
                  (response : Result Upstream) : Result Reply :=
  match body with
  | Throw e => Throw e
  | Ok provider =>
      if isString provider "vogent" then
        if negb (OmniVoice.present callAgentId)
        then Throw (ErrorObj "VOGENT_CALL_AGENT_ID is not configured")
        else match createVogentDial response with
             | Throw e => Throw e
             | Ok dialData =>
                 Ok (JsonReply [("sessionId", dial_sessionId dialData);
                                ("dialId", dial_dialId dialData);
                                ("dialToken", dial_dialToken dialData)])
             end
      else if isString provider "vapi" then
        match createVapiCall response with
        | Throw e => Throw e
        | Ok callData =>
            Ok (JsonReply [("joinUrl", call_joinUrl callData);
                           ("callId", call_callId callData)])
        end
      else if isString provider "ultravox" then
        match createUltravoxCall response with
        | Throw e => Throw e
        | Ok callData =>
            Ok (JsonReply [("joinUrl", call_joinUrl callData);
                           ("callId", call_callId callData)])
        end
      else Ok (TextReply 400
                 ("Unknown provider: "
                  ++ match provider with Some s => s | None => "undefined" end))
  end.

Definition POST (authenticated : bool) (body : Result (option string))
                (callAgentId : option string) (response : Result Upstream)
  : list OmniVoice.LogLine * Reply :=
  if negb authenticated then ([], TextReply 401 "Unauthorized")
  else match create body callAgentId response with
       | Ok reply => ([], reply)
       | Throw e =>
           ([OmniVoice.LogThrown "Failed to create voice call:" e],
            TextReply 500 match e with
                          | ErrorObj m => m
                          | NonError => "Failed to create voice call"
                          end)
       end.

End OmniVoiceCreate.


(* ------------------------------------------------------------------ *)
(** ** Vocabulary of the properties *)

(** [spells w s]: the string [s] is the word [w] with each of its letters
    written in lower or in upper case. *)
Fixpoint spells (w s : string) : bool :=
  match w, s with
  | EmptyString, EmptyString => true
  | String a w', String c s' =>
      (Ascii.eqb c a || Ascii.eqb c (Js.upperChar a)) && spells w' s'
  | _, _ => false
  end.

(** The role the specification gives to a Vogent speaker tag. *)
Definition speakerRole (speaker : string) : string :=
  if spells "human" speaker || spells "user" speaker then "user" else "assistant".

(** Every 8-bit code unit. *)
Definition allAscii : list ascii := map ascii_of_nat (seq 0 256).

(** The letters of the two speaker tags. *)
Definition tagLetters : list ascii :=
  ["h"; "u"; "m"; "a"; "n"; "s"; "e"; "r"]%char.

(** A word made of letters of the speaker tags. *)
Fixpoint lettersIn (w : string) : Prop :=
  match w with
  | EmptyString => True
  | String a r => In a tagLetters /\ lettersIn r
  end.

(** The status values the adapters store beyond the canonical ones:
    Vogent's "ended" and Ultravox's "idle" and "disconnecting". *)
Definition providerStatuses : list string := ["ended"; "idle"; "disconnecting"].

(** The response codes a provider's termination takes for a call that is
    already over. *)
Definition tolerated (p : VoiceProvider) : list Z :=
  match p with
  | vogent => []
  | vapi => [404]
  | ultravox => [404; 410; 425]
  end%Z.

(** The value of the [provider] query parameter. *)
Definition providerName (p : VoiceProvider) : string :=
  match p with
  | vogent => "vogent"
  | vapi => "vapi"
  | ultravox => "ultravox"
  end.

(** The library call the DELETE handler makes for a provider (none for
    Vogent). *)
Definition terminate (p : VoiceProvider) (response : Result HttpResponse)
  : OmniVoice.Logged unit :=
  match p with
  | vogent => ([], Ok tt)
  | vapi => OmniVoice.endVapiCall response
  | ultravox => OmniVoice.endUltravoxCall response
  end.

(** A message has a text payload when one of its parts is a text part with
    a non-empty text; the payload is the text of the first such part. *)
Definition hasPayload (msg : OmniVoice.ChatMessage) : bool :=
  existsb OmniVoice.isTextPart (OmniVoice.parts msg).

Definition payload (msg : OmniVoice.ChatMessage) : string :=
  match OmniVoice.textPayload msg with
  | Some t => t
  | None => ""
  end.

(** The [{ role, content }] pair of a message, for a mapping of roles. *)
Definition translate (roleOf : string -> string) (msg : OmniVoice.ChatMessage)
  : OmniVoice.RoleContent :=
  {| OmniVoice.rc_role := roleOf (OmniVoice.role msg);
     OmniVoice.rc_content := payload msg |}.

(** The system entry with a prompt. *)
Definition systemEntry (prompt : string) : OmniVoice.RoleContent :=
  {| OmniVoice.rc_role := "system"; OmniVoice.rc_content := prompt |}.

(** The message list of a request body of Ultravox (empty when the body has
    no [initialMessages]). *)
Definition initialMessagesOf (b : OmniVoice.UltravoxBody) : list OmniVoice.RoleContent :=
  match OmniVoice.body_initialMessages b with
  | Some l => l
  | None => []
  end.

(** In the Ultravox adapter the status is never "connected", and it is
    listening, thinking or speaking only together with isConnected. *)
Definition ultravoxInvariant (st : OmniChatState) : Prop :=
  status st <> "connected"
  /\ (isActivity (status st) = true -> isConnected st = true).

(** The Vapi messages that add a transcript entry: type "transcript",
    transcriptType "final", and a text that is not blank. *)
Definition vapiAccepts (m : VapiMessage) : bool :=
  (m_type m =? "transcript")
  && isString (m_transcriptType m) "final"
  && negb (Js.blank (vapiText m)).

Definition vapiEntry (m : VapiMessage) : TranscriptEntry :=
  {| role := vapiRole m; text := vapiText m |}.

(** *** Sample values *)

Definition sampleCredentials : Credentials :=
  {| sessionId := "s1"; dialId := "d1"; dialToken := "t1";
     joinUrl := "wss://join"; credCallId := "c1" |}.

Definition sampleResponse (code : Z) : HttpResponse :=
  {| httpStatus := code; bodyText := ""; bodyJson := Ok sampleCredentials |}.

(** A start in which every awaited operation succeeds. *)
Definition sampleStart : StartEnv :=
  {| sdkImport := Ok tt; sessionResponse := Ok (sampleResponse 200);
     sdkStart := Ok (Some "c1"); sdkConnectAudio := Ok tt;
     vapiPublicKey := "pk" |}.

(** No callback, and the callback the voice panel passes:
    [(error) => { console.error("Voice error:", error); }]. *)
Definition noOptions : Options := {| onError := None |}.

Definition panelOptions : Options :=
  {| onError := Some (fun _ => (["Voice error:"], Ok tt)) |}.

(** An end in which the SDK's teardown throws. *)
Definition sampleFailingEnd : EndEnv :=
  {| unsubscribe := Ok tt; sdkTeardown := Throw (ErrorObj "hangup failed");
     deleteRequest := Ok tt |}.

(** A partial and a final transcript message of Vapi. *)
Definition samplePartial : VapiMessage :=
  {| m_type := "transcript"; m_transcriptType := Some "partial";
     m_role := Some "user"; m_transcript := Some "hel"; m_content := None |}.

Definition sampleFinal : VapiMessage :=
  {| m_type := "transcript"; m_transcriptType := Some "final";
     m_role := Some "user"; m_transcript := Some "hello"; m_content := None |}.

Definition textMessage (r t : string) : OmniVoice.ChatMessage :=
  {| OmniVoice.role := r;
     OmniVoice.parts := [{| OmniVoice.type := "text"; OmniVoice.text := Some t |}] |}.

(** A session of Ultravox: the start, the status events of a connection
    that reaches the listening state, the success update in between. *)
Definition sampleUltravoxSession : list Action :=
  [StartBegin;
   Listener (UltravoxStatusEvent CONNECTING);
   Listener (UltravoxStatusEvent IDLE);
   StartSucceeded "c1";
   Listener (UltravoxStatusEvent LISTENING)].

(** A session of Vapi whose start succeeds and in which a speech event
    is delivered with no call-start before it. *)
Definition sampleVapiUngated : list Action :=
  [StartBegin; StartSucceeded "c1"; Listener VapiSpeechStart].

(** A session of Vapi in which the call starts before the user speaks. *)
Definition sampleVapiSession : list Action :=
  [StartBegin; Listener VapiCallStart; StartSucceeded "c1";
   Listener VapiSpeechStart; Listener VapiSpeechEnd].

(** *** Vocabulary of the further properties *)

Definition thrownOf {A} (r : Result A) : option Thrown :=
  match r with
  | Ok _ => None
  | Throw e => Some e
  end.

(** The first of two possible errors. *)
Definition orElse (a b : option Thrown) : option Thrown :=
  match a with
  | Some e => Some e
  | None => b
  end.

(** The error that keeps a start from getting its credentials: a failed
    import, a failed session request, an answer that is not ok (the error
    then carries the body of the answer) or a body that does not parse. *)
Definition credentialsError (env : StartEnv) : option Thrown :=
  orElse (thrownOf (sdkImport env))
    match sessionResponse env with
    | Throw e => Some e
    | Ok r => if ok r then thrownOf (bodyJson r) else Some (ErrorObj (bodyText r))
    end.

(** The first error a start of provider [p] meets, if any. *)
Definition startError (p : VoiceProvider) (env : StartEnv) : option Thrown :=
  match p with
  | vogent =>
      orElse (credentialsError env)
        (orElse (thrownOf (sdkStart env)) (thrownOf (sdkConnectAudio env)))
  | vapi => orElse (thrownOf (sdkImport env)) (thrownOf (sdkStart env))
  | ultravox => orElse (credentialsError env) (thrownOf (sdkStart env))
  end.

(** What the caller's callback does with an error of a given message:
    the lines it writes and its outcome; nothing when there is none. *)
Definition reported (options : Options) (errorMessage : string)
  : list string * Result unit :=
  match onError options with
  | Some callback => callback errorMessage
  | None => ([], Ok tt)
  end.

(** What a [startCall] reports: nothing when the guard holds it back or
    when it meets no error, else the first error, to the callback. *)
Definition startReport (p : VoiceProvider) (rendered : OmniChatState)
                       (options : Options) (env : StartEnv)
  : list string * Result unit :=
  if guard rendered then ([], Ok tt)
  else match startError p env with
       | Some e => reported options (startErrorMessage e)
       | None => ([], Ok tt)
       end.

(** Whether the adapter of [p] holds a connection object. *)
Definition activeRef (p : VoiceProvider) (h : Hook) : bool :=
  match p with
  | vogent => match callRef h with Some _ => true | None => false end
  | vapi => match vapiRef h with Some _ => true | None => false end
  | ultravox => match sessionRef h with Some _ => true | None => false end
  end.

(** The refs of the adapters other than [p] are the same in two hooks. *)
Definition sameOtherRefs (p : VoiceProvider) (h h' : Hook) : Prop :=
  match p with
  | vogent => vapiRef h' = vapiRef h /\ sessionRef h' = sessionRef h
  | vapi => callRef h' = callRef h
            /\ transcriptUnsubscribeRef h' = transcriptUnsubscribeRef h
            /\ sessionRef h' = sessionRef h
  | ultravox => callRef h' = callRef h
                /\ transcriptUnsubscribeRef h' = transcriptUnsubscribeRef h
                /\ vapiRef h' = vapiRef h
  end.

Definition sameRefs (h h' : Hook) : Prop :=
  callRef h' = callRef h
  /\ transcriptUnsubscribeRef h' = transcriptUnsubscribeRef h
  /\ vapiRef h' = vapiRef h
  /\ sessionRef h' = sessionRef h
  /\ constructed h' = constructed h.

(** A transcript entry as the panel expects it: a role it knows and, for
    the providers whose adapter filters, a text that is not blank. *)
Definition entryOk (p : VoiceProvider) (e : TranscriptEntry) : Prop :=
  (role e = "user" \/ role e = "assistant")
  /\ match p with
     | ultravox => True
     | _ => Js.blank (text e) = false
     end.

(** The identifier the DELETE handler asks for, and its complaint. *)
Definition identifierOf (p : VoiceProvider) (callId dialId : option string)
  : option string :=
  match p with
  | vogent => dialId
  | _ => callId
  end.

Definition identifierRequired (p : VoiceProvider) : string :=
  match p with
  | vogent => "Dial ID required"
  | _ => "Call ID required"
  end.

(** The prefix of the error of a failed call creation. *)
Definition createPrefix (p : VoiceProvider) : string :=
  match p with
  | vogent => "Failed to create Vogent dial: "
  | vapi => "Failed to create Vapi call: "
  | ultravox => "Failed to create Ultravox call: "
  end.

(** A text reply of the POST handler as the hook's [fetch] receives it;
    [parseError] is what [response.json()] would throw on it. *)
Definition clientResponse (parseError : Thrown) (r : OmniVoiceCreate.Reply)
  : option HttpResponse :=
  match r with
  | OmniVoiceCreate.TextReply code body =>
      Some {| httpStatus := code; bodyText := body; bodyJson := Throw parseError |}
  | OmniVoiceCreate.JsonReply _ => None
  end.

Definition replyCode (r : OmniVoiceCreate.Reply) : Z :=
  match r with
  | OmniVoiceCreate.TextReply code _ => code
  | OmniVoiceCreate.JsonReply _ => 200
  end.

(** A start whose session request is answered 500 with a text. *)
Definition sampleFailingStart : StartEnv :=
  {| sdkImport := Ok tt;
     sessionResponse := Ok {| httpStatus := 500; bodyText := "upstream down";
                              bodyJson := Throw NonError |};
     sdkStart := Ok None; sdkConnectAudio := Ok tt; vapiPublicKey := "pk" |}.

Definition sampleUpstreamFailure : OmniVoiceCreate.Upstream :=
  {| OmniVoiceCreate.upStatus := 503; OmniVoiceCreate.upText := "overloaded";
     OmniVoiceCreate.upJson := Throw NonError |}.

(** The state a session ends in. *)
Definition finalState (p : VoiceProvider) (acts : list Action) (st : OmniChatState)
  : OmniChatState :=
  fold_left (fun s a => applyAction p a s) acts st.


Definition sampleBenignEnd : EndEnv :=
  {| unsubscribe := Ok tt;
     sdkTeardown := Throw (ErrorObj "Call: Meeting Ended by host");
     deleteRequest := Ok tt |}.

(** An answer of Ultravox's call-creation endpoint with the two fields. *)
Definition sampleUpstreamOk : OmniVoiceCreate.Upstream :=
  {| OmniVoiceCreate.upStatus := 201; OmniVoiceCreate.upText := "";
     OmniVoiceCreate.upJson :=
       Ok (fun k => if k =? "joinUrl" then Some "wss://join"
                    else if k =? "callId" then Some "c1" else None) |}.

(** A message with an image, an empty text part and then its text. *)
Definition sampleMixedMessage : OmniVoice.ChatMessage :=
  {| OmniVoice.role := "user";
     OmniVoice.parts :=
       [{| OmniVoice.type := "image"; OmniVoice.text := Some "alt" |};
        {| OmniVoice.type := "text"; OmniVoice.text := Some "" |};
        {| OmniVoice.type := "text"; OmniVoice.text := Some "hello" |};
        {| OmniVoice.type := "text"; OmniVoice.text := Some "again" |}] |}.

(* ================================================================== *)
(** * Properties *)

(** ** Strings *)

Lemma allAscii_complete (c : ascii) : In c allAscii.
Proof.
  unfold allAscii.
  rewrite <- (ascii_nat_embedding c).
  apply in_map, in_seq.
  pose proof (nat_ascii_bounded c). lia.
Qed.

Lemma trimEnd_blank (s : string) : Js.isEmpty (Js.trimEnd s) = Js.blank s.
Proof.
  induction s as [| c r IH]; simpl; [reflexivity |].
  rewrite IH.
  destruct (Js.isWhiteSpace c), (Js.blank r); reflexivity.
Qed.

Lemma trimStart_blank (s : string) : Js.blank (Js.trimStart s) = Js.blank s.
Proof.
  induction s as [| c r IH]; simpl; [reflexivity |].
  destruct (Js.isWhiteSpace c) eqn:W; simpl.
  - exact IH.
  - now rewrite W.
Qed.

(** [s.trim()] is empty exactly when [s] is made of white space only. *)
Lemma trim_blank (s : string) : Js.isEmpty (Js.trim s) = Js.blank s.
Proof.
  unfold Js.trim. now rewrite trimEnd_blank, trimStart_blank.
Qed.

Lemma length_isEmpty (s : string) : Nat.ltb 0 (String.length s) = negb (Js.isEmpty s).
Proof. destruct s; reflexivity. Qed.

Lemma blank_empty (s : string) : Js.isEmpty s = true -> Js.blank s = true.
Proof. destruct s; [reflexivity | discriminate]. Qed.

(** On the letters of the speaker tags, two code units have the same upper
    case exactly when one is the other in lower or in upper case. *)
Lemma upperChar_tag_letter (a c : ascii) :
  In a tagLetters ->
  Ascii.eqb (Js.upperChar c) (Js.upperChar a)
  = Ascii.eqb c a || Ascii.eqb c (Js.upperChar a).
Proof.
  intros Ha.
  assert (H : forallb (fun a' => forallb (fun c' =>
              Bool.eqb (Ascii.eqb (Js.upperChar c') (Js.upperChar a'))
                       (Ascii.eqb c' a' || Ascii.eqb c' (Js.upperChar a')))
              allAscii) tagLetters = true) by (vm_compute; reflexivity).
  rewrite forallb_forall in H. specialize (H a Ha).
  rewrite forallb_forall in H. specialize (H c (allAscii_complete c)).
  now apply Bool.eqb_prop in H.
Qed.

Lemma toUpperCase_spells (w : string) :
  lettersIn w ->
  forall s, (Js.toUpperCase s =? Js.toUpperCase w) = spells w s.
Proof.
  induction w as [| a w IH]; intros Hw s.
  - destruct s; reflexivity.
  - destruct Hw as [Ha Hw]. destruct s as [| c s]; [reflexivity |].
    cbn [Js.toUpperCase spells String.eqb].
    rewrite <- (IH Hw s), <- (upperChar_tag_letter a c Ha).
    destruct (Ascii.eqb (Js.upperChar c) (Js.upperChar a)); reflexivity.
Qed.

Lemma vogentRole_speakerRole (speaker : string) :
  vogentRole speaker = speakerRole speaker.
Proof.
  unfold vogentRole, speakerRole.
  change "HUMAN" with (Js.toUpperCase "human").
  change "USER" with (Js.toUpperCase "user").
  rewrite !toUpperCase_spells; [reflexivity | |];
    simpl; unfold tagLetters; simpl; intuition.
Qed.

Lemma vogentKeeps_blank (t : RawTranscript) :
  vogentKeeps t = negb (Js.blank (t_text t)).
Proof.
  unfold vogentKeeps, Js.truthy.
  rewrite length_isEmpty, trim_blank.
  destruct (Js.isEmpty (t_text t)) eqn:E; simpl; [| reflexivity].
  now rewrite (blank_empty _ E).
Qed.

(** ** Vogent transcripts *)

(** C6. The Vogent transcript normalisation keeps, in order, exactly the raw
    entries whose text is not blank (neither empty nor white space only),
    gives role "user" to an entry whose speaker tag spells "human" or "user"
    in any letter case and role "assistant" to every other one, and keeps the
    text as it is; no entry of the normalised transcripts is blank, and the
    normalised list is what the state update stores. *)
Theorem vogent_transcript_normalization (transcript : list RawTranscript)
                                        (prev : OmniChatState) :
  vogentFormat transcript
  = map (fun t => {| role := speakerRole (t_speaker t); text := t_text t |})
        (filter (fun t => negb (Js.blank (t_text t))) transcript)
  /\ Forall (fun e => Js.blank (text e) = false
                      /\ (role e = "user" \/ role e = "assistant"))
            (vogentFormat transcript)
  /\ transcripts (handleTranscriptUpdate transcript prev) = vogentFormat transcript.
Proof.
  assert (E : vogentFormat transcript
              = map (fun t => {| role := speakerRole (t_speaker t); text := t_text t |})
                    (filter (fun t => negb (Js.blank (t_text t))) transcript)).
  { unfold vogentFormat.
    rewrite (filter_ext _ _ vogentKeeps_blank).
    apply map_ext. intros t. now rewrite vogentRole_speakerRole. }
  split; [exact E | split; [| reflexivity]].
  rewrite E, Forall_map, Forall_forall.
  intros t Ht. apply filter_In in Ht. destruct Ht as [_ Ht]. simpl.
  split.
  - now apply negb_true_iff.
  - unfold speakerRole.
    destruct (spells "human" (t_speaker t) || spells "user" (t_speaker t)); auto.
Qed.

Example speaker_tags :
  map vogentRole ["HUMAN"; "Human"; "user"; "uSeR"; "AI"; ""; "humans"; "agent"]
  = ["user"; "user"; "user"; "user"; "assistant"; "assistant"; "assistant";
     "assistant"]
  /\ spells "human" "hUmAn" = true
  /\ spells "user" "usr" = false.
Proof. repeat split. Qed.

Example vogent_scenario :
  vogentFormat [{| t_text := "hi"; t_speaker := "HUMAN" |};
                {| t_text := "  "; t_speaker := "AI" |};
                {| t_text := "hello"; t_speaker := "AI" |}]
  = [{| role := "user"; text := "hi" |}; {| role := "assistant"; text := "hello" |}].
Proof. reflexivity. Qed.

(** ** Status events *)

(** The status listeners store what the provider sent: a Vogent "ended"
    goes to the session state as it is. *)
Lemma status_event_outside_canonical :
  let st := onEvent vogent (VogentStatusEvent VsEnded) (initialState vogent) in
  status st = "ended" /\ ~ In (status st) canonicalStatuses.
Proof.
  split; [reflexivity |].
  simpl. intros H.
  repeat (destruct H as [H | H]; [discriminate H |]). exact H.
Qed.

(** C1, as the code has it.  Every status event of every provider family
    stores a status of the canonical enumeration extended with the providers'
    own values "ended" (Vogent), "idle" and "disconnecting" (Ultravox):
    Vogent stores one of connecting, connected, ended, error; Vapi one of
    connected, disconnected, listening, thinking; Ultravox the name of the
    session status.  The listeners are total functions of the event and the
    previous state; Vogent's lower-cases whatever string it is given. *)
Theorem status_event_range (prev : OmniChatState) :
  (forall s : VogentStatus,
      In (status (onEvent vogent (VogentStatusEvent s) prev))
         ["connecting"; "connected"; "ended"; "error"])
  /\ (forall raw : string, status (vogentOnStatus raw prev) = Js.toLowerCase raw)
  /\ status (onEvent vapi VapiCallStart prev) = "connected"
  /\ status (onEvent vapi VapiCallEnd prev) = "disconnected"
  /\ status (onEvent vapi VapiSpeechStart prev) = "listening"
  /\ status (onEvent vapi VapiSpeechEnd prev) = "thinking"
  /\ (forall s : UltravoxSessionStatus,
         In (status (onEvent ultravox (UltravoxStatusEvent s) prev))
            ["disconnected"; "disconnecting"; "connecting"; "idle";
             "listening"; "thinking"; "speaking"])
  /\ (forall (p : VoiceProvider) (e : Event),
         status (onEvent p e prev) = status prev
         \/ In (status (onEvent p e prev)) (canonicalStatuses ++ providerStatuses)).
Proof.
  repeat split.
  - intros s. destruct s; simpl; auto 10.
  - intros s. destruct s; simpl; auto 10.
  - intros p e.
    destruct p, e as [s | t | | | | | m | msg | s | ses];
      try (left; reflexivity);
      try (right; simpl; auto 20; fail).
    + right. destruct s; simpl; auto 20.
    + left. simpl. unfold vapiOnMessage.
      destruct (_ && _); [destruct (negb _) |]; reflexivity.
    + left. simpl. unfold vapiOnError.
      destruct (_ || _); [| destruct (Js.truthy msg)]; reflexivity.
    + right. destruct s; simpl; auto 20.
    + left. destruct ses; reflexivity.
Qed.

(** ** Ending a call *)

Lemma adapter_endCall_quiet (p : VoiceProvider) (env : EndEnv) (h : Hook) :
  snd (adapterEndCall (getProvider p) env h) = Ok tt
  /\ state (fst (adapterEndCall (getProvider p) env h)) = state h.
Proof.
  destruct env as [u t d], p; simpl.
  - unfold vogentEndCall. destruct (callRef h); [| split; reflexivity].
    cbv [tryFinally tryCatch bindE await ret setTranscriptUnsubscribeRef
         setCallRef consoleError unsubscribe sdkTeardown deleteRequest].
    destruct (transcriptUnsubscribeRef h), u as [[] | eu], t as [[] | et],
      (hasCallId (state h)), d as [[] | ed];
      split; reflexivity.
  - unfold vapiEndCall. destruct (vapiRef h); [| split; reflexivity].
    cbv [tryFinally tryCatch bindE await ret setVapiRef consoleError sdkTeardown].
    destruct t as [[] | et]; [split; reflexivity |].
    destruct (negb _ && negb _); split; reflexivity.
  - unfold ultravoxEndCall. destruct (sessionRef h); [| split; reflexivity].
    cbv [tryFinally tryCatch bindE await ret setSessionRef consoleError
         sdkTeardown deleteRequest].
    destruct t as [[] | et], (hasCallId (state h)), d as [[] | ed];
      split; reflexivity.
Qed.

(** C2. For every hook instance, every active provider and every outcome of
    the adapter's teardown (unsubscription, SDK teardown, DELETE request, each
    succeeding or throwing), [endCall] completes without throwing and leaves
    the state with isConnected = false, isConnecting = false, status
    "disconnected", no transcripts and no error: the state is the reset of the
    state it started from. *)
Theorem endCall_resets (p : VoiceProvider) (env : EndEnv) (h : Hook) :
  let st := state (fst (endCall p env h)) in
  snd (endCall p env h) = Ok tt
  /\ isConnected st = false
  /\ isConnecting st = false
  /\ status st = "disconnected"
  /\ transcripts st = []
  /\ error st = None
  /\ st = resetState (state h).
Proof.
  destruct (adapter_endCall_quiet p env h) as [Hok Hst].
  unfold endCall, bindE.
  destruct (adapterEndCall (getProvider p) env h) as [h' r].
  simpl in Hok, Hst. subst r. simpl. rewrite Hst.
  repeat split.
Qed.

Example endCall_after_failed_hangup :
  let h := fst (startCall vogent (initialState vogent) noOptions sampleStart
                            (initialHook vogent)) in
  isConnected (state h) = true
  /\ endCall vogent sampleFailingEnd h
     = ({| state := initialState vogent; callRef := None;
           transcriptUnsubscribeRef := false; vapiRef := None;
           sessionRef := None; constructed := 1;
           console := ["Error ending Vogent call:"] |}, Ok tt).
Proof. split; reflexivity. Qed.

(** ** Starting a call *)

Lemma startCall_guarded_noop (p : VoiceProvider) (rendered : OmniChatState)
                             (options : Options) (env : StartEnv) (h : Hook) :
  guard rendered = true -> startCall p rendered options env h = (h, Ok tt).
Proof.
  intros G. destruct p; cbv [startCall getProvider adapterStartCall];
    [unfold vogentStartCall | unfold vapiStartCall | unfold ultravoxStartCall];
    now rewrite G.
Qed.

Lemma startCall_unguarded (p : VoiceProvider) (rendered : OmniChatState)
                          (options : Options) (env : StartEnv) (h : Hook) :
  guard rendered = false ->
  startCall p rendered options env h
  = startRest p options env (fst (setState beginConnecting h)).
Proof.
  intros G. destruct p; cbv [startCall getProvider adapterStartCall startRest];
    [unfold vogentStartCall, vogentStartBody
    | unfold vapiStartCall, vapiStartBody
    | unfold ultravoxStartCall, ultravoxStartBody];
    rewrite G; reflexivity.
Qed.

Lemma startRest_succeeds (p : VoiceProvider) (options : Options)
                         (env : StartEnv) (h : Hook) :
  startSucceeds env = true ->
  let h' := fst (startRest p options env h) in
  constructed h' = S (constructed h)
  /\ (isConnected (state h) = true \/ isConnecting (state h) = true ->
      guard (state h') = true).
Proof.
  intros Hs. unfold startSucceeds in Hs.
  apply andb_true_iff in Hs as [Hs HA].
  apply andb_true_iff in Hs as [Hs HS].
  apply andb_true_iff in Hs as [HI HR].
  destruct env as [[[] | ei] [r | er] [c | es] [[] | ea] k];
    simpl in HA, HS, HI, HR; try discriminate.
  apply andb_true_iff in HR as [Hok HJ].
  destruct r as [code btxt [creds | ej]]; simpl in HJ; try discriminate.
  unfold ok in Hok; simpl in Hok.
  destruct p; simpl.
  - cbv [vogentStartRest tryCatch bindE await ret throw setState setCallRef
         setTranscriptUnsubscribeRef ok sdkImport sessionResponse sdkStart
         sdkConnectAudio httpStatus bodyJson bodyText].
    rewrite Hok. simpl. split; [lia | reflexivity].
  - cbv [vapiStartRest tryCatch bindE await ret throw setState setVapiRef
         sdkImport sdkStart vapiPublicKey].
    destruct c as [id |]; [destruct (Js.truthy id) |]; simpl;
      (split; [lia | unfold guard; simpl; intros [H | H]; rewrite H;
                     auto using orb_true_r]).
  - cbv [ultravoxStartRest tryCatch bindE await ret throw setState setSessionRef
         ok sdkImport sessionResponse sdkStart httpStatus bodyJson bodyText].
    rewrite Hok. simpl. split; [lia | reflexivity].
Qed.



(** Outside that precondition: two invocations of the callback of one
    render, the second before the entering update of the first has been
    rendered, both read a state that shows neither connecting nor connected;
    both pass the guard, and each constructs a connection object. *)
Lemma startCall_same_render_twice
      (p : VoiceProvider) (options : Options) (env1 env2 : StartEnv)
      (rendered : OmniChatState) (h : Hook) :
  guard rendered = false ->
  startSucceeds env1 = true ->
  startSucceeds env2 = true ->
  constructed (fst (startCall p rendered options env2
                      (fst (startCall p rendered options env1 h))))
  = S (S (constructed h)).
Proof.
  intros G S1 S2.
  rewrite !(startCall_unguarded p rendered options _ _ G).
  destruct (startRest_succeeds p options env2
              (fst (setState beginConnecting
                      (fst (startRest p options env1
                              (fst (setState beginConnecting h)))))) S2)
    as [H2 _].
  destruct (startRest_succeeds p options env1
              (fst (setState beginConnecting h)) S1) as [H1 _].
  rewrite H2. f_equal.
  change (constructed (fst (startRest p options env1
                               (fst (setState beginConnecting h))))
          = S (constructed h)).
  exact H1.
Qed.

(** ** Ultravox transcripts *)

(** C4. On a transcript tick with a live session object, the Ultravox
    adapter maps the whole transcript array of the session, entry by entry
    and in order, and stores the result in place of the transcripts the
    state held: the new transcripts do not depend on the previous ones, have
    one entry per entry of the session's array (nothing is dropped or merged),
    and the other fields of the state are kept. *)
Theorem ultravox_transcripts_snapshot (session : UltravoxSession)
                                      (prev : OmniChatState) :
  let st := onEvent ultravox (UltravoxTranscriptsEvent (Some session)) prev in
  transcripts st
  = map (fun t => {| role := if Js.toLowerCase (t_speaker t) =? "user"
                             then "user" else "assistant";
                     text := t_text t |})
        (us_transcripts session)
  /\ List.length (transcripts st) = List.length (us_transcripts session)
  /\ (forall prev' : OmniChatState,
         transcripts (updateTranscripts (Some session) prev') = transcripts st)
  /\ st = withTranscripts (transcripts st) prev.
Proof.
  simpl. repeat split.
  unfold ultravoxFormat. now rewrite length_map.
Qed.

Example ultravox_snapshot_replaces :
  let prev := withTranscripts [{| role := "user"; text := "old" |}]
                              (initialState ultravox) in
  let session := {| us_transcripts :=
                      [{| t_text := "hi"; t_speaker := "user" |};
                       {| t_text := "hi"; t_speaker := "user" |};
                       {| t_text := ""; t_speaker := "agent" |}] |} in
  transcripts (updateTranscripts (Some session) prev)
  = [{| role := "user"; text := "hi" |}; {| role := "user"; text := "hi" |};
     {| role := "assistant"; text := "" |}].
Proof. reflexivity. Qed.

(** ** Vapi transcripts *)

Lemma truthy_trim (s : string) : Js.truthy (Js.trim s) = negb (Js.blank s).
Proof. unfold Js.truthy. now rewrite trim_blank. Qed.

Lemma vapiOnMessage_accepts (m : VapiMessage) (prev : OmniChatState) :
  vapiOnMessage m prev
  = if vapiAccepts m
    then withTranscripts (transcripts prev ++ [vapiEntry m]) prev
    else prev.
Proof.
  unfold vapiOnMessage, vapiAccepts. rewrite truthy_trim, negb_involutive.
  destruct (m_type m =? "transcript"), (isString (m_transcriptType m) "final"),
    (Js.blank (vapiText m)); reflexivity.
Qed.

(** Over a sequence of messages the entries are appended in arrival order,
    one per accepted message. *)
Lemma vapi_transcripts_in_order (ms : list VapiMessage) (prev : OmniChatState) :
  transcripts (fold_left (fun st m => vapiOnMessage m st) ms prev)
  = (transcripts prev ++ map vapiEntry (filter vapiAccepts ms))%list.
Proof.
  revert prev. induction ms as [| m ms IH]; intros prev; simpl.
  - now rewrite app_nil_r.
  - rewrite IH, vapiOnMessage_accepts.
    destruct (vapiAccepts m); simpl; [| reflexivity].
    now rewrite <- app_assoc.
Qed.

(** C5. On a Vapi message of type "transcript", writing role for "user"
    when the message's role is "user" and "assistant" otherwise, and text
    for the message's transcript when it has a non-empty one, else its
    content when it has a non-empty one, else the empty string:
    - when the transcriptType is not "final" (an interim or partial event,
      or none), the state and its transcripts are left as they were;
    - when it is "final" and the text is blank, likewise;
    - when it is "final" and the text is not blank, the one entry
      {role, text} is appended at the end of the transcripts and every other
      field of the state is kept. *)
Theorem vapi_final_transcripts_only (m : VapiMessage) (prev : OmniChatState) :
  m_type m = "transcript" ->
  let entryRole :=
    match m_role m with
    | Some r => if r =? "user" then "user" else "assistant"
    | None => "assistant"
    end in
  let entryText :=
    match m_transcript m with
    | Some (String c t) => String c t
    | _ => match m_content m with
           | Some (String c t) => String c t
           | _ => ""
           end
    end in
  (m_transcriptType m <> Some "final" ->
   onEvent vapi (VapiMessageEvent m) prev = prev)
  /\ (m_transcriptType m = Some "final" -> Js.blank entryText = true ->
      onEvent vapi (VapiMessageEvent m) prev = prev)
  /\ (m_transcriptType m = Some "final" -> Js.blank entryText = false ->
      onEvent vapi (VapiMessageEvent m) prev
      = {| isConnected := isConnected prev; isConnecting := isConnecting prev;
           status := status prev; statusMessage := statusMessage prev;
           transcripts :=
             (transcripts prev ++ [{| role := entryRole; text := entryText |}])%list;
           callId := callId prev; error := error prev;
           isMuted := isMuted prev; provider := provider prev |}).
Proof.
  intros T entryRole entryText.
  assert (R : vapiRole m = entryRole).
  { unfold vapiRole, isString, entryRole. destruct (m_role m); reflexivity. }
  assert (X : vapiText m = entryText).
  { unfold vapiText, orUndefined, Js.or, entryText.
    destruct (m_transcript m) as [[| c t] |], (m_content m) as [[| c' t'] |];
      reflexivity. }
  assert (E : onEvent vapi (VapiMessageEvent m) prev
              = if isString (m_transcriptType m) "final" && negb (Js.blank entryText)
                then withTranscripts
                       (transcripts prev ++ [{| role := entryRole; text := entryText |}])
                       prev
                else prev).
  { simpl. rewrite vapiOnMessage_accepts. unfold vapiAccepts, vapiEntry.
    now rewrite T, String.eqb_refl, R, X. }
  rewrite E. repeat split.
  - intros N. destruct (m_transcriptType m) as [t |]; [| reflexivity].
    simpl. destruct (String.eqb_spec t "final") as [-> | _]; [congruence | reflexivity].
  - intros _ B. rewrite B. now rewrite andb_false_r.
  - intros F B. rewrite F, B. reflexivity.
Qed.

Lemma vapi_final_transcripts_only_witness :
  let st1 := onEvent vapi (VapiMessageEvent samplePartial) (initialState vapi) in
  let st2 := onEvent vapi (VapiMessageEvent sampleFinal) st1 in
  st1 = initialState vapi
  /\ transcripts st2 = [{| role := "user"; text := "hello" |}].
Proof.
  cbv zeta.
  destruct (vapi_final_transcripts_only samplePartial (initialState vapi) eq_refl)
    as (P1 & _ & _).
  rewrite (P1 ltac:(discriminate)).
  destruct (vapi_final_transcripts_only sampleFinal (initialState vapi) eq_refl)
    as (_ & _ & P3).
  rewrite (P3 eq_refl eq_refl). split; reflexivity.
Defined.

Example vapi_assistant_content :
  transcripts
    (onEvent vapi
       (VapiMessageEvent {| m_type := "transcript"; m_transcriptType := Some "final";
                            m_role := Some "bot"; m_transcript := Some "";
                            m_content := Some "Hello there" |})
       (initialState vapi))
  = [{| role := "assistant"; text := "Hello there" |}].
Proof. reflexivity. Qed.

(** ** Conversation history *)

Lemma textPayload_hasPayload (msg : OmniVoice.ChatMessage) :
  hasPayload msg = match OmniVoice.textPayload msg with
                   | Some _ => true
                   | None => false
                   end.
Proof.
  unfold hasPayload, OmniVoice.textPayload.
  induction (OmniVoice.parts msg) as [| p ps IH]; simpl; [reflexivity |].
  destruct (OmniVoice.isTextPart p) eqn:E; simpl; [| exact IH].
  unfold OmniVoice.isTextPart in E.
  apply andb_true_iff in E as [_ E].
  destruct (OmniVoice.text p) as [t |]; [now rewrite E | discriminate].
Qed.

(** A message without text payload: every text part of it has no text or
    the empty text. *)
Lemma hasPayload_false (msg : OmniVoice.ChatMessage) :
  hasPayload msg = false <->
  forall p, In p (OmniVoice.parts msg) ->
            OmniVoice.type p = "text" ->
            OmniVoice.text p = None \/ OmniVoice.text p = Some "".
Proof.
  unfold hasPayload. split.
  - intros H p Hp Ht.
    assert (E : OmniVoice.isTextPart p = false).
    { destruct (OmniVoice.isTextPart p) eqn:E; [| reflexivity].
      assert (X : existsb OmniVoice.isTextPart (OmniVoice.parts msg) = true)
        by (apply existsb_exists; eauto).
      congruence. }
    unfold OmniVoice.isTextPart in E. rewrite Ht, String.eqb_refl in E.
    destruct (OmniVoice.text p) as [[| c t] |]; auto; discriminate.
  - intros H.
    destruct (existsb _ _) eqn:E; [| reflexivity].
    apply existsb_exists in E as (p & Hp & E).
    unfold OmniVoice.isTextPart in E.
    apply andb_true_iff in E as [Et E].
    apply String.eqb_eq in Et.
    destruct (H p Hp Et) as [N | N]; rewrite N in E; discriminate.
Qed.

Lemma format_translate (roleOf : string -> string) (ms : list OmniVoice.ChatMessage) :
  OmniVoice.dropNull
    (map (fun msg =>
            match OmniVoice.textPayload msg with
            | None => None
            | Some t => Some {| OmniVoice.rc_role := roleOf (OmniVoice.role msg);
                                OmniVoice.rc_content := t |}
            end) ms)
  = map (translate roleOf) (filter hasPayload ms).
Proof.
  induction ms as [| m ms IH]; simpl; [reflexivity |].
  rewrite textPayload_hasPayload.
  destruct (OmniVoice.textPayload m) as [t |] eqn:E; simpl; rewrite IH;
    [| reflexivity].
  f_equal. unfold translate, payload. now rewrite E.
Qed.

(** The message list sent to Ultravox does not carry the system prompt. *)
Lemma ultravox_prompt_not_first :
  let config := OmniVoice.routeConfig (Some "Be brief.")
                                      (Some [textMessage "user" "hi"]) in
  hd_error (initialMessagesOf (OmniVoice.createUltravoxCall_body config))
  <> Some (systemEntry (OmniVoice.systemPrompt config)).
Proof. simpl. discriminate. Qed.

(** C7, as the code has it.  The history formatters of Vapi and Ultravox
    translate, in order, every message that has a text payload to a
    {role, content} pair and drop every message whose text payload is empty.
    For Vapi the explicit prompt, or the default one when none is given, is
    the first entry of the message list, with role "system", followed by the
    translated history.  For Ultravox the prompt goes in the field
    systemPrompt of the request body and the message list is the translated
    history alone, left out of the body when it is empty. *)
Theorem history_translation (prompt : option string)
                            (history : option (list OmniVoice.ChatMessage)) :
  let config := OmniVoice.routeConfig prompt history in
  let used := orUndefined prompt OmniVoice.DEFAULT_SYSTEM_PROMPT in
  let ms := match history with Some ms => ms | None => [] end in
  OmniVoice.formatMessagesForVapi ms
  = map (translate OmniVoice.vapiRoleOf) (filter hasPayload ms)
  /\ OmniVoice.formatMessagesForUltravox ms
     = map (translate OmniVoice.ultravoxRoleOf) (filter hasPayload ms)
  /\ OmniVoice.createVapiCall_messages config
     = systemEntry used :: OmniVoice.formatMessagesForVapi ms
  /\ OmniVoice.body_systemPrompt (OmniVoice.createUltravoxCall_body config) = used
  /\ initialMessagesOf (OmniVoice.createUltravoxCall_body config)
     = OmniVoice.formatMessagesForUltravox ms
  /\ (OmniVoice.body_initialMessages (OmniVoice.createUltravoxCall_body config) = None
      <-> OmniVoice.formatMessagesForUltravox ms = []).
Proof.
  cbv zeta.
  split; [apply format_translate |].
  split; [apply format_translate |].
  split; [destruct history; reflexivity |].
  split; [reflexivity |].
  unfold initialMessagesOf, OmniVoice.createUltravoxCall_body. simpl.
  destruct history as [ms |]; simpl.
  - destruct (OmniVoice.formatMessagesForUltravox ms); simpl;
      split; try reflexivity; split; intros; (reflexivity || discriminate).
  - split; [reflexivity | split; reflexivity].
Qed.

Example vapi_history_scenario :
  OmniVoice.createVapiCall_messages
    (OmniVoice.routeConfig (Some "")
       (Some [textMessage "system" "rules"; textMessage "user" "";
              textMessage "tool" "out"; textMessage "user" "hi"]))
  = [systemEntry OmniVoice.DEFAULT_SYSTEM_PROMPT;
     {| OmniVoice.rc_role := "system"; OmniVoice.rc_content := "rules" |};
     {| OmniVoice.rc_role := "assistant"; OmniVoice.rc_content := "out" |};
     {| OmniVoice.rc_role := "user"; OmniVoice.rc_content := "hi" |}].
Proof. reflexivity. Qed.

Lemma ultravoxRoleOf_range (r : string) :
  OmniVoice.ultravoxRoleOf r = "user" \/ OmniVoice.ultravoxRoleOf r = "assistant".
Proof. unfold OmniVoice.ultravoxRoleOf. destruct (r =? "user"); auto. Qed.

(** C10. For every message list, the Ultravox history formatter forwards
    each message that has a text payload with role "user" when its role is
    exactly "user" and with role "assistant" otherwise (a "system" message
    included), so that every entry it emits has role "user" or "assistant";
    no entry of the initialMessages of the request body has role "system". *)
Theorem ultravox_history_roles (ms : list OmniVoice.ChatMessage)
                               (config : OmniVoice.CallConfig) :
  OmniVoice.formatMessagesForUltravox ms
  = map (translate (fun r => if r =? "user" then "user" else "assistant"))
        (filter hasPayload ms)
  /\ Forall (fun e => OmniVoice.rc_role e = "user"
                      \/ OmniVoice.rc_role e = "assistant")
            (OmniVoice.formatMessagesForUltravox ms)
  /\ OmniVoice.ultravoxRoleOf "system" = "assistant"
  /\ Forall (fun e => OmniVoice.rc_role e <> "system")
            (initialMessagesOf (OmniVoice.createUltravoxCall_body config)).
Proof.
  assert (R : forall l, Forall (fun e => OmniVoice.rc_role e = "user"
                                         \/ OmniVoice.rc_role e = "assistant")
                               (OmniVoice.formatMessagesForUltravox l)).
  { intros l. unfold OmniVoice.formatMessagesForUltravox.
    rewrite format_translate, Forall_map, Forall_forall.
    intros m _. apply ultravoxRoleOf_range. }
  split; [apply format_translate |].
  split; [apply R |].
  split; [reflexivity |].
  unfold initialMessagesOf, OmniVoice.createUltravoxCall_body. simpl.
  destruct (OmniVoice.messages config) as [l |]; [| constructor].
  specialize (R l).
  destruct (OmniVoice.formatMessagesForUltravox l) as [| e es]; [constructor |].
  eapply Forall_impl; [| exact R].
  intros a [H | H]; rewrite H; discriminate.
Qed.

(** ** Terminating a call *)


(** C8. When the provider's delete-call endpoint answers with a status the
    provider's termination tolerates (404 for Vapi; 404, 410 or 425 for
    Ultravox), the termination returns normally and logs nothing, as for a
    successful answer, and the DELETE handler replies 200 "Call ended". *)
Theorem terminate_tolerates_gone (p : VoiceProvider) (r : HttpResponse)
                                 (callId dialId : option string) :
  In (httpStatus r) (tolerated p) ->
  OmniVoice.present callId = true ->
  terminate p (Ok r) = ([], Ok tt)
  /\ OmniVoice.DELETE true (Some (providerName p)) callId dialId (Ok r)
     = ([], OmniVoice.mkReply 200 "Call ended").
Proof.
  intros Hs Hc.
  destruct p; simpl in Hs; [contradiction | |].
  - destruct Hs as [Hs | []].
    assert (E : OmniVoice.endVapiCall (Ok r) = ([], Ok tt)).
    { unfold OmniVoice.endVapiCall. rewrite <- Hs. simpl.
      now rewrite andb_false_r. }
    split; [exact E |].
    unfold OmniVoice.DELETE, OmniVoice.deleteCall.
    cbn -[OmniVoice.endVapiCall OmniVoice.endUltravoxCall].
    now rewrite Hc, E.
  - assert (X : existsb (Z.eqb (httpStatus r)) [404; 410; 425]%Z = true).
    { apply existsb_exists. exists (httpStatus r). split.
      - simpl. tauto.
      - apply Z.eqb_refl. }
    assert (E : OmniVoice.endUltravoxCall (Ok r) = ([], Ok tt)).
    { unfold OmniVoice.endUltravoxCall. rewrite X. simpl.
      now rewrite andb_false_r. }
    split; [exact E |].
    unfold OmniVoice.DELETE, OmniVoice.deleteCall.
    cbn -[OmniVoice.endVapiCall OmniVoice.endUltravoxCall].
    now rewrite Hc, E.
Qed.

Lemma terminate_tolerates_gone_witness :
  terminate vapi (Ok (sampleResponse 404)) = ([], Ok tt)
  /\ OmniVoice.DELETE true (Some "vapi") (Some "c1") None (Ok (sampleResponse 404))
     = ([], OmniVoice.mkReply 200 "Call ended").
Proof.
  apply (terminate_tolerates_gone vapi (sampleResponse 404) (Some "c1") None).
  - simpl. left. reflexivity.
  - reflexivity.
Defined.

Example ultravox_terminate_codes :
  terminate ultravox (Ok (sampleResponse 410)) = ([], Ok tt)
  /\ terminate ultravox (Ok (sampleResponse 425)) = ([], Ok tt)
  /\ terminate ultravox (Ok (sampleResponse 500))
     = ([OmniVoice.LogStatus "Failed to end call" 500],
        Throw (ErrorObj "Failed to end call"))
  /\ OmniVoice.DELETE true (Some "ultravox") (Some "c1") None (Ok (sampleResponse 500))
     = ([OmniVoice.LogStatus "Failed to end call" 500;
         OmniVoice.LogThrown "Failed to end voice call:" (ErrorObj "Failed to end call")],
        OmniVoice.mkReply 500 "Failed to end call").
Proof. repeat split. Qed.

(** ** Status sequences *)

(** The state an uninterrupted [startCall] ends in is the one its state
    updates produce: entering, then the success or the failure update. *)
Lemma startCall_state_actions (p : VoiceProvider) (rendered : OmniChatState)
                              (options : Options) (env : StartEnv) (h : Hook) :
  guard rendered = false ->
  exists acts : list Action,
    state (fst (startCall p rendered options env h))
    = last (run p acts (state h)) (state h)
    /\ (acts = [StartBegin]
        \/ (exists id, acts = [StartBegin; StartSucceeded id])
        \/ (exists msg, acts = [StartBegin; StartFailed msg])).
Proof.
  intros G. rewrite (startCall_unguarded p rendered options env h G).
  destruct env as [i resp st au k].
  destruct options as [[callback |]].
  all: destruct p; simpl;
    cbv [vogentStartRest vapiStartRest ultravoxStartRest tryCatch bindE await
         ret throw setState setCallRef setVapiRef setSessionRef startCatch
         callOnError onError setTranscriptUnsubscribeRef sdkImport
         sessionResponse sdkStart sdkConnectAudio vapiPublicKey];
    destruct i as [[] | ei];
    try (eexists [StartBegin; StartFailed _]; split; [reflexivity | eauto]; fail);
    try (destruct resp as [r | er];
         [| eexists [StartBegin; StartFailed _]; split; [reflexivity | eauto]];
         destruct (ok r);
         [| eexists [StartBegin; StartFailed _]; split; [reflexivity | eauto]];
         destruct (bodyJson r) as [c | ej];
         [| eexists [StartBegin; StartFailed _]; split; [reflexivity | eauto]]);
    (destruct st as [o | es];
     [| eexists [StartBegin; StartFailed _]; split; [reflexivity | eauto]]);
    try (destruct au as [[] | ea];
         [| eexists [StartBegin; StartFailed _]; split; [reflexivity | eauto]]);
    try (eexists [StartBegin; StartSucceeded _]; split; [reflexivity | eauto];
         fail);
    destruct o as [id |]; [destruct (Js.truthy id) |];
    first [ eexists [StartBegin; StartSucceeded _]; split;
            [reflexivity | eauto]
          | exists [StartBegin]; split; [reflexivity | auto] ].
Qed.

Lemma connectedFirst_quiet (seen : bool) (ss : list string) :
  Forall (fun s => isActivity s = false) ss -> connectedFirst seen ss = true.
Proof.
  intros H. revert seen.
  induction H as [| s ss Hs _ IH]; intros seen; simpl; [reflexivity |].
  rewrite Hs. destruct (s =? "disconnected"); apply IH.
Qed.

(** No state update of the Vogent adapter stores listening, thinking or
    speaking. *)
Lemma vogent_step_quiet (a : Action) (st : OmniChatState) :
  isActivity (status st) = false ->
  isActivity (status (applyAction vogent a st)) = false.
Proof.
  intros H. destruct a as [| id | msg | e |]; try exact H; try reflexivity.
  destruct e as [s | t | | | | | m | msg | s | ses]; try exact H.
  destruct s; reflexivity.
Qed.

Lemma vogent_run_quiet (acts : list Action) (st : OmniChatState) :
  isActivity (status st) = false ->
  Forall (fun st' => isActivity (status st') = false) (run vogent acts st).
Proof.
  revert st. induction acts as [| a acts IH]; intros st H; simpl; constructor.
  - now apply vogent_step_quiet.
  - apply IH. now apply vogent_step_quiet.
Qed.

(** Showing once more one of the four statuses of the Vapi adapter changes
    nothing for what follows. *)
Lemma connectedFirst_repeat (s : string) (rest : list string) :
  In s ["disconnected"; "connected"; "listening"; "thinking"] ->
  connectedFirst (negb (s =? "disconnected")) (s :: rest)
  = connectedFirst (negb (s =? "disconnected")) rest.
Proof.
  intros [<- | [<- | [<- | [<- | []]]]]; reflexivity.
Qed.

(** What a state update of the Vapi adapter does to the status: call-start,
    call-end, the reset and the two speech events set it, every other update
    keeps it. *)
Lemma vapi_step_status (a : Action) (st : OmniChatState) :
  (a = Listener VapiCallStart /\ status (applyAction vapi a st) = "connected")
  \/ ((a = Listener VapiCallEnd \/ a = EndReset)
      /\ status (applyAction vapi a st) = "disconnected")
  \/ (a = Listener VapiSpeechStart /\ status (applyAction vapi a st) = "listening")
  \/ (a = Listener VapiSpeechEnd /\ status (applyAction vapi a st) = "thinking")
  \/ (status (applyAction vapi a st) = status st
      /\ forall started rest,
           callStartFirst started (a :: rest) = callStartFirst started rest).
Proof.
  destruct a as [| id | msg | e |].
  - repeat right. split; reflexivity.
  - repeat right. split; reflexivity.
  - repeat right. split; reflexivity.
  - destruct e as [s | t | | | | | m | msg | s | ses];
      try (repeat right; split; reflexivity).
    + left. split; reflexivity.
    + right. left. split; [left |]; reflexivity.
    + right. right. left. split; reflexivity.
    + right. right. right. left. split; reflexivity.
    + repeat right. split; [| reflexivity]. simpl. unfold vapiOnMessage.
      destruct (_ && _); [destruct (negb _) |]; reflexivity.
    + repeat right. split; [| reflexivity]. simpl. unfold vapiOnError.
      destruct (_ || _); [| destruct (Js.truthy msg)]; reflexivity.
  - right. left. split; [right |]; reflexivity.
Qed.

(** The Vapi adapter relays the provider's events: the statuses it shows
    reach "connected" before any listening or thinking, call after call,
    exactly when the provider delivers no speech event outside a call. *)
Lemma vapi_run_per_call (acts : list Action) :
  forall st : OmniChatState,
    In (status st) ["disconnected"; "connected"; "listening"; "thinking"] ->
    connectedFirst (negb (status st =? "disconnected"))
                   (map status (run vapi acts st))
    = callStartFirst (negb (status st =? "disconnected")) acts.
Proof.
  induction acts as [| a acts IH]; intros st Hst; [reflexivity |].
  cbn [run map].
  destruct (vapi_step_status a st)
    as [[-> E] | [[Ha E] | [[-> E] | [[-> E] | [E K]]]]].
  - rewrite E. cbn [connectedFirst callStartFirst]. simpl (isActivity _).
    simpl ("connected" =? _). cbv iota. rewrite orb_true_r.
    specialize (IH (applyAction vapi (Listener VapiCallStart) st)).
    rewrite E in IH. apply IH. simpl. tauto.
  - assert (R : callStartFirst (negb (status st =? "disconnected")) (a :: acts)
                = callStartFirst false acts) by (destruct Ha; subst a; reflexivity).
    rewrite R, E. cbn [connectedFirst]. simpl (isActivity _).
    simpl ("disconnected" =? _). cbv iota.
    specialize (IH (applyAction vapi a st)).
    rewrite E in IH. apply IH. simpl. tauto.
  - rewrite E. cbn [connectedFirst callStartFirst]. simpl (isActivity _). cbv iota.
    destruct (negb (status st =? "disconnected")); [| reflexivity].
    simpl. specialize (IH (applyAction vapi (Listener VapiSpeechStart) st)).
    rewrite E in IH. apply IH. simpl. tauto.
  - rewrite E. cbn [connectedFirst callStartFirst]. simpl (isActivity _). cbv iota.
    destruct (negb (status st =? "disconnected")); [| reflexivity].
    simpl. specialize (IH (applyAction vapi (Listener VapiSpeechEnd) st)).
    rewrite E in IH. apply IH. simpl. tauto.
  - rewrite K, E, (connectedFirst_repeat _ _ Hst).
    specialize (IH (applyAction vapi a st)).
    rewrite E in IH. apply IH. exact Hst.
Qed.

Lemma ultravox_step_invariant (a : Action) (st : OmniChatState) :
  ultravoxInvariant st -> ultravoxInvariant (applyAction ultravox a st).
Proof.
  intros [H1 H2].
  destruct a as [| id | msg | e |]; try (split; [exact H1 | exact H2]).
  - split; [exact H1 | reflexivity].
  - destruct e as [s | t | | | | | m | msg | s | ses];
      try (split; [exact H1 | exact H2]).
    + destruct s; split; simpl; (discriminate || reflexivity || auto).
    + destruct ses; split; assumption.
  - split; simpl; [discriminate | discriminate].
Qed.

Lemma ultravox_run_invariant (acts : list Action) (st : OmniChatState) :
  ultravoxInvariant st -> Forall ultravoxInvariant (run ultravox acts st).
Proof.
  revert st. induction acts as [| a acts IH]; intros st H; simpl; constructor.
  - now apply ultravox_step_invariant.
  - apply IH. now apply ultravox_step_invariant.
Qed.

(** With Ultravox, a session that connects and hears the user goes through
    connecting, idle and listening: its status is never "connected".  With
    Vapi, a speech event delivered before call-start shows "listening" while
    the status has not been "connected". *)
Lemma listening_without_connected :
  let ultravoxTrace := map status (run ultravox sampleUltravoxSession
                                       (initialState ultravox)) in
  let vapiTrace := map status (run vapi sampleVapiUngated (initialState vapi)) in
  ultravoxTrace = ["disconnected"; "connecting"; "idle"; "idle"; "listening"]
  /\ ~ In "connected" ultravoxTrace
  /\ connectedFirst false ultravoxTrace = false
  /\ vapiTrace = ["disconnected"; "disconnected"; "listening"]
  /\ ~ In "connected" vapiTrace
  /\ connectedFirst false vapiTrace = false.
Proof.
  cbv zeta. repeat split; simpl; intros H;
    repeat (destruct H as [H | H]; [discriminate H |]); exact H.
Qed.

(** C9, as the code has it.  Over every sequence of state updates from the
    initial state, a call ending when the status is back to "disconnected":
    - Vogent: the status is never listening, thinking or speaking, and the
      success update of [startCall] sets it to "connected", so the property
      holds;
    - Vapi: the adapter stores "connected" on call-start and listening or
      thinking on the speech events without gating them; in each call the
      status reaches "connected" before any listening or thinking exactly
      when the provider delivers no speech event before the call-start of
      the call or after its end;
    - Ultravox: the status is never "connected" (a connected session is
      "idle"), and whenever it is listening, thinking or speaking the state
      has isConnected = true. *)
Theorem activity_after_connected (acts : list Action) :
  Forall (fun st => isActivity (status st) = false)
         (run vogent acts (initialState vogent))
  /\ connectedFirst false (map status (run vogent acts (initialState vogent))) = true
  /\ (forall id st, status (applyAction vogent (StartSucceeded id) st) = "connected")
  /\ connectedFirst false (map status (run vapi acts (initialState vapi)))
     = callStartFirst false acts
  /\ Forall (fun st => status st <> "connected"
                       /\ (isActivity (status st) = true -> isConnected st = true))
            (run ultravox acts (initialState ultravox)).
Proof.
  assert (Q : Forall (fun st => isActivity (status st) = false)
                     (run vogent acts (initialState vogent)))
    by (apply vogent_run_quiet; reflexivity).
  split; [exact Q |].
  split; [apply connectedFirst_quiet; now rewrite Forall_map |].
  split; [reflexivity |].
  split; [apply (vapi_run_per_call acts (initialState vapi)); simpl; tauto |].
  apply (ultravox_run_invariant acts (initialState ultravox)).
  split; [discriminate | discriminate].
Qed.

(** Two calls of Vapi: in the first the call starts before the user
    speaks; in the second a speech event comes before the call-start, and
    the sequence as a whole is not in order. *)
Example vapi_second_call :
  let acts := (sampleVapiSession
               ++ [Listener VapiCallEnd; StartBegin; Listener VapiSpeechStart])%list in
  connectedFirst false (map status (run vapi sampleVapiSession (initialState vapi)))
  = true
  /\ connectedFirst false (map status (run vapi acts (initialState vapi))) = false
  /\ callStartFirst false acts = false.
Proof. repeat split. Qed.

(* ================================================================== *)
(** * Further properties of the hook *)

(** ** [startCall]: errors *)

Ltac run_start :=
  cbv [startRest vogentStartRest vapiStartRest ultravoxStartRest tryCatch
       bindE await ret throw setState setCallRef setVapiRef setSessionRef
       setTranscriptUnsubscribeRef startCatch callOnError onError sdkImport
       sessionResponse sdkStart sdkConnectAudio vapiPublicKey].

(** Splits a start into the cases of its awaited operations. *)
Ltac start_cases p env :=
  destruct env as [[[] | ?ei] [?r | ?er] [?o | ?es] [[] | ?ea] ?k];
  destruct p; run_start;
  try match goal with
      | r : HttpResponse |- _ =>
          destruct (ok r) eqn:?Hok; [destruct (bodyJson r) as [?c | ?ej] eqn:?Hj |]
      end;
  try match goal with
      | o : option string |- _ =>
          destruct o as [?id |]; [destruct (Js.truthy id) eqn:?Hid |]
      end.

(** [startCall] catches every error of the import, the session request and
    the SDK, and hands the first one to the caller's [onError], once and
    after the failure update.  It returns normally unless that callback
    throws; the console gains what the callback writes and nothing else (the
    panel's callback writes one line for every failed start).  It leaves
    the status label, the transcripts and the mute flag as they were and
    constructs at most one connection object. *)
Theorem startCall_errors_caught (p : VoiceProvider) (rendered : OmniChatState)
        (options : Options) (env : StartEnv) (h : Hook) :
  let h' := fst (startCall p rendered options env h) in
  snd (startCall p rendered options env h)
  = snd (startReport p rendered options env)
  /\ console h' = (console h ++ fst (startReport p rendered options env))%list
  /\ statusMessage (state h') = statusMessage (state h)
  /\ transcripts (state h') = transcripts (state h)
  /\ isMuted (state h') = isMuted (state h)
  /\ provider (state h') = provider (state h)
  /\ (constructed h' = constructed h \/ constructed h' = S (constructed h)).
Proof.
  unfold startReport.
  destruct (guard rendered) eqn:G.
  - rewrite (startCall_guarded_noop p rendered options env h G). simpl.
    rewrite app_nil_r. repeat split. now left.
  - rewrite (startCall_unguarded p rendered options env h G).
    unfold startError, credentialsError, orElse, thrownOf, reported.
    destruct options as [[callback |]].
    all: start_cases p env; simpl; rewrite ?app_nil_r; repeat split;
      first [left; reflexivity | right; lia].
Qed.

Example startCall_panel_logs :
  let h' := fst (startCall ultravox (initialState ultravox) panelOptions
                           sampleFailingStart (initialHook ultravox)) in
  console h' = ["Voice error:"]
  /\ error (state h') = Some "upstream down".
Proof. split; reflexivity. Qed.

Lemma startCall_caught (p : VoiceProvider) (rendered : OmniChatState)
      (options : Options) (env : StartEnv) (h : Hook) (e : Thrown) :
  guard rendered = false ->
  startError p env = Some e ->
  let st := state (fst (startCall p rendered options env h)) in
  isConnecting st = false
  /\ error st = Some (startErrorMessage e)
  /\ isConnected st = isConnected (state h)
  /\ status st = status (state h)
  /\ callId st = callId (state h)
  /\ guard st = isConnected (state h).
Proof.
  intros G E.
  rewrite (startCall_unguarded p rendered options env h G).
  unfold startError, credentialsError, orElse, thrownOf in E.
  destruct options as [[callback |]].
  all: start_cases p env; cbn in E;
    repeat match goal with
           | H : ok _ = _ |- _ => rewrite H in E
           | H : bodyJson _ = _ |- _ => rewrite H in E
           end;
    cbn in E; try discriminate E;
    injection E as <-; unfold guard; simpl; repeat split.
Qed.



(** Vogent and Ultravox construct their connection object only once the
    credentials are there: when the import, the session request or its body
    fails, [startCall] constructs nothing and leaves every ref as it was. *)
Theorem startCall_without_credentials (p : VoiceProvider)
        (rendered : OmniChatState) (options : Options) (env : StartEnv)
        (h : Hook) (e : Thrown) :
  p <> vapi ->
  credentialsError env = Some e ->
  sameRefs h (fst (startCall p rendered options env h)).
Proof.
  intros P E.
  destruct (guard rendered) eqn:G.
  - rewrite (startCall_guarded_noop p rendered options env h G). repeat split.
  - rewrite (startCall_unguarded p rendered options env h G).
    unfold credentialsError, orElse, thrownOf in E.
    destruct options as [[callback |]].
    all: start_cases p env; try congruence; cbn in E;
      repeat match goal with
             | H : ok _ = _ |- _ => rewrite H in E
             | H : bodyJson _ = _ |- _ => rewrite H in E
             end;
      cbn in E; try discriminate E; repeat split.
Qed.

Lemma startCall_without_credentials_witness :
  sameRefs (initialHook vogent)
           (fst (startCall vogent (initialState vogent) panelOptions
                           sampleFailingStart (initialHook vogent))).
Proof.
  apply (startCall_without_credentials vogent (initialState vogent) panelOptions
           sampleFailingStart (initialHook vogent) (ErrorObj "upstream down")).
  - discriminate.
  - reflexivity.
Defined.


(** ** Benign termination errors of Vapi *)

Lemma toLowerCase_app (a b : string) :
  Js.toLowerCase (a ++ b) = Js.toLowerCase a ++ Js.toLowerCase b.
Proof. induction a as [| c a IH]; simpl; [reflexivity | now rewrite IH]. Qed.

Lemma prefix_app (t b : string) : String.prefix t (t ++ b) = true.
Proof.
  induction t as [| c t IH]; simpl; [destruct b; reflexivity |].
  destruct (ascii_dec c c); [exact IH | congruence].
Qed.

Lemma includes_unfold (s t : string) :
  Js.includes s t
  = String.prefix t s || match s with
                         | EmptyString => false
                         | String _ r => Js.includes r t
                         end.
Proof. destruct s; reflexivity. Qed.

(** A string includes each of its substrings. *)
Lemma includes_app (a t b : string) : Js.includes (a ++ t ++ b) t = true.
Proof.
  induction a as [| c a IH].
  - simpl. rewrite includes_unfold, prefix_app. reflexivity.
  - rewrite includes_unfold. simpl. rewrite IH. apply orb_true_r.
Qed.

(** An error whose message contains "meeting ended" or "ejection", in any
    letter case and anywhere in the message, is not shown: the error
    listener of Vapi leaves the state as it is, and when [stop()] throws it
    [endCall] returns normally and logs nothing. *)
Theorem vapi_benign_errors_suppressed (pre w post : string)
        (prev : OmniChatState) (env : EndEnv) (h : Hook) :
  Js.toLowerCase w = "meeting ended" \/ Js.toLowerCase w = "ejection" ->
  sdkTeardown env = Throw (ErrorObj (pre ++ w ++ post)) ->
  onEvent vapi (VapiErrorEvent (pre ++ w ++ post)) prev = prev
  /\ snd (vapiEndCall env h) = Ok tt
  /\ console (fst (vapiEndCall env h)) = console h.
Proof.
  intros W T.
  assert (B : Js.includes (Js.toLowerCase (pre ++ w ++ post)) "meeting ended"
              || Js.includes (Js.toLowerCase (pre ++ w ++ post)) "ejection" = true).
  { rewrite !toLowerCase_app.
    destruct W as [-> | ->]; rewrite includes_app;
      [reflexivity | apply orb_true_r]. }
  split.
  - simpl. unfold vapiOnError. now rewrite B.
  - unfold vapiEndCall. destruct (vapiRef h); [| split; reflexivity].
    cbv [tryFinally tryCatch bindE await ret setVapiRef consoleError].
    rewrite T. cbv [thrownMessage].
    apply orb_true_iff in B.
    destruct (Js.includes (Js.toLowerCase (pre ++ w ++ post)) "meeting ended"),
      (Js.includes (Js.toLowerCase (pre ++ w ++ post)) "ejection");
      simpl; try (split; reflexivity).
    destruct B; discriminate.
Qed.

(** ** [toggleMute] *)

(** [toggleMute] changes at most the mute flag of the state and touches no
    ref; without a connection object of the active provider it does nothing
    at all.  For Vogent it never throws, and a [setPaused] that fails leaves
    the mute flag as it was. *)
Theorem toggleMute_frame (p : VoiceProvider) (env : MuteEnv) (h : Hook) :
  let h' := fst (toggleMute p env h) in
  (activeRef p h = false -> toggleMute p env h = (h, Ok tt))
  /\ state h' = withMuted (isMuted (state h')) (state h)
  /\ sameRefs h h'
  /\ snd (toggleMute vogent env h) = Ok tt
  /\ (raises (sdkSetPaused env) = true ->
      isMuted (state (fst (toggleMute vogent env h))) = isMuted (state h)).
Proof.
  destruct h as [[c g s m t i e u q] cr tu vr sr n cs].
  destruct env as [[[] | ep] sm [[] | em]].
  all: destruct p, cr, vr, sr; simpl; repeat split; intros; discriminate.
Qed.

(** ** Disposal *)

(** The cleanup of the unmount effect never changes the state, the count
    of constructed objects or the console, whatever the teardown calls do.
    When the teardown calls of Vogent and Ultravox return normally it leaves
    no connection object and no transcript subscription behind, whatever
    Vapi's [stop()] does, and running it again does nothing. *)
Theorem unmountCleanup_clears (ev ea eu ev' ea' eu' : EndEnv) (h : Hook) :
  let h' := fst (unmountCleanup ev ea eu h) in
  state h' = state h
  /\ constructed h' = constructed h
  /\ console h' = console h
  /\ (raises (sdkTeardown ev) = false ->
      raises (unsubscribe ev) = false ->
      raises (sdkTeardown eu) = false ->
      snd (unmountCleanup ev ea eu h) = Ok tt
      /\ activeRef vogent h' = false
      /\ activeRef vapi h' = false
      /\ activeRef ultravox h' = false
      /\ transcriptUnsubscribeRef h' = false
      /\ unmountCleanup ev' ea' eu' h' = (h', Ok tt)).
Proof.
  destruct h as [st cr tu vr sr n cs].
  destruct ev as [[[] | e1] [[] | e2] d1].
  all: destruct eu as [u3 [[] | e3] d3].
  all: destruct ea as [u2 [[] | e4] d2].
  all: destruct cr, tu, vr, sr; simpl; rewrite ?Nat.add_0_r;
    (split; [reflexivity |]); (split; [reflexivity |]); (split; [reflexivity |]);
    intros H1 H2 H3; try discriminate H1; try discriminate H2;
    try discriminate H3; repeat split.
Qed.

(** ** [endCall]: repetition and ownership *)

Ltac run_end :=
  cbv [endCall getProvider adapterEndCall vogentEndCall vapiEndCall
       ultravoxEndCall tryFinally tryCatch bindE await ret setState
       setTranscriptUnsubscribeRef setCallRef setVapiRef setSessionRef
       consoleError unsubscribe sdkTeardown deleteRequest thrownMessage
       state callRef transcriptUnsubscribeRef vapiRef sessionRef constructed
       console fst snd];
  repeat match goal with
         | |- context [if ?b then _ else _] =>
             match type of b with bool => destruct b end
         end.

(** [endCall] ends the connection of the active provider only: afterwards
    that adapter holds no connection object, the refs of the two other
    adapters and the count of constructed objects are as before; when the
    active adapter held no object to begin with, nothing is torn down and
    nothing is logged. *)
Theorem endCall_frame (p : VoiceProvider) (env : EndEnv) (h : Hook) :
  let h' := fst (endCall p env h) in
  activeRef p h' = false
  /\ sameOtherRefs p h h'
  /\ constructed h' = constructed h
  /\ (activeRef p h = false -> console h' = console h /\ sameRefs h h').
Proof.
  destruct h as [st cr tu vr sr n cs].
  destruct env as [[[] | e1] [[] | e2] [[] | e3]].
  all: cbv zeta; unfold activeRef, sameOtherRefs, sameRefs;
    destruct p, cr, vr, sr; run_end;
    rewrite ?Nat.add_0_r; repeat split; intros; discriminate.
Qed.

(** A second [endCall] finds nothing to end: it returns normally and leaves
    the hook exactly as the first one left it, whatever teardown outcomes
    it would have met. *)
Theorem endCall_twice (p : VoiceProvider) (env1 env2 : EndEnv) (h : Hook) :
  endCall p env2 (fst (endCall p env1 h)) = (fst (endCall p env1 h), Ok tt).
Proof.
  destruct h as [st cr tu vr sr n cs].
  destruct env1 as [[[] | e1] [[] | e2] [[] | e3]].
  all: destruct p, cr, vr, sr; run_end; reflexivity.
Qed.


Lemma vapi_benign_errors_suppressed_witness :
  onEvent vapi (VapiErrorEvent "Call: Meeting Ended by host") (initialState vapi)
  = initialState vapi
  /\ snd (vapiEndCall sampleBenignEnd (initialHook vapi)) = Ok tt
  /\ console (fst (vapiEndCall sampleBenignEnd (initialHook vapi))) = [].
Proof.
  apply (vapi_benign_errors_suppressed "Call: " "Meeting Ended" " by host"
           (initialState vapi) sampleBenignEnd (initialHook vapi)).
  - left. reflexivity.
  - reflexivity.
Defined.

Lemma unmountCleanup_clears_witness :
  let quiet := {| unsubscribe := Ok tt; sdkTeardown := Ok tt;
                  deleteRequest := Ok tt |} in
  let h := fst (startCall vogent (initialState vogent) noOptions sampleStart
                          (initialHook vogent)) in
  let h' := fst (unmountCleanup quiet sampleFailingEnd quiet h) in
  activeRef vogent h = true
  /\ state h' = state h
  /\ snd (unmountCleanup quiet sampleFailingEnd quiet h) = Ok tt
  /\ activeRef vogent h' = false.
Proof.
  cbv zeta.
  pose proof (unmountCleanup_clears
                {| unsubscribe := Ok tt; sdkTeardown := Ok tt; deleteRequest := Ok tt |}
                sampleFailingEnd
                {| unsubscribe := Ok tt; sdkTeardown := Ok tt; deleteRequest := Ok tt |}
                sampleFailingEnd sampleFailingEnd sampleFailingEnd
                (fst (startCall vogent (initialState vogent) noOptions sampleStart
                                (initialHook vogent)))) as H.
  cbv zeta in H. destruct H as (H0 & _ & _ & H).
  destruct (H eq_refl eq_refl eq_refl) as (H1 & H3 & _).
  split; [reflexivity | split; [exact H0 | split; [exact H1 | exact H3]]].
Defined.

(** ** Invariants of the session state *)

Lemma vogentFormat_entries (transcript : list RawTranscript) :
  Forall (entryOk vogent) (vogentFormat transcript).
Proof.
  unfold vogentFormat. rewrite Forall_map, Forall_forall.
  intros t Ht. apply filter_In in Ht as [_ Ht].
  rewrite vogentKeeps_blank in Ht. apply negb_true_iff in Ht.
  split; [| exact Ht]. simpl. unfold vogentRole.
  destruct (_ || _); auto.
Qed.

Lemma ultravoxFormat_entries (ts : list RawTranscript) :
  Forall (entryOk ultravox) (ultravoxFormat ts).
Proof.
  unfold ultravoxFormat. rewrite Forall_map, Forall_forall.
  intros t _. split; [| exact I]. simpl. unfold ultravoxRole.
  destruct (_ =? _); auto.
Qed.

Lemma vapiEntry_ok (m : VapiMessage) :
  vapiAccepts m = true -> entryOk vapi (vapiEntry m).
Proof.
  unfold vapiAccepts. intros H.
  apply andb_true_iff in H as [_ H]. apply negb_true_iff in H.
  split; [| exact H]. simpl. unfold vapiRole.
  destruct (isString _ _); auto.
Qed.

Lemma applyAction_entries (p : VoiceProvider) (a : Action) (st : OmniChatState) :
  Forall (entryOk p) (transcripts st) ->
  Forall (entryOk p) (transcripts (applyAction p a st)).
Proof.
  intros H.
  destruct a as [| id | msg | e |]; try exact H.
  - destruct p; exact H.
  - destruct p, e as [s | t | | | | | m | msg | s | ses]; try exact H.
    + apply vogentFormat_entries.
    + simpl. rewrite vapiOnMessage_accepts.
      destruct (vapiAccepts m) eqn:A; [| exact H].
      simpl. apply Forall_app. split; [exact H |].
      constructor; [now apply vapiEntry_ok | constructor].
    + simpl. unfold vapiOnError.
      destruct (_ || _); [| destruct (Js.truthy msg)]; exact H.
    + destruct ses as [ses |]; [apply ultravoxFormat_entries | exact H].
  - constructor.
Qed.

(** Whatever a session goes through, every transcript entry of the state
    has role "user" or "assistant", and with Vogent and Vapi none has a blank
    text (Ultravox entries are taken as the session holds them). *)
Theorem transcripts_wellformed (p : VoiceProvider) (acts : list Action) :
  Forall (fun st => Forall (entryOk p) (transcripts st))
         (run p acts (initialState p)).
Proof.
  assert (G : forall st, Forall (entryOk p) (transcripts st) ->
                         Forall (fun st' => Forall (entryOk p) (transcripts st'))
                                (run p acts st)).
  { induction acts as [| a acts IH]; intros st H; simpl; constructor.
    - now apply applyAction_entries.
    - apply IH. now apply applyAction_entries. }
  apply G. constructor.
Qed.

Lemma vapi_step_grows (a : Action) (st : OmniChatState) :
  a <> EndReset ->
  exists more,
    transcripts (applyAction vapi a st) = (transcripts st ++ more)%list.
Proof.
  intros N.
  destruct a as [| id | msg | e |]; try congruence;
    try (exists []; simpl; now rewrite app_nil_r).
  destruct e as [s | t | | | | | m | msg | s | ses];
    try (exists []; simpl; now rewrite app_nil_r).
  - simpl. rewrite vapiOnMessage_accepts.
    destruct (vapiAccepts m); [eexists; reflexivity |].
    exists []. now rewrite app_nil_r.
  - simpl. unfold vapiOnError. exists [].
    destruct (_ || _); [| destruct (Js.truthy msg)]; simpl; now rewrite app_nil_r.
Qed.

(** With Vapi the transcripts only grow during a session: as long as
    [endCall] does not reset the state, the transcripts at any earlier moment
    are a prefix of the later ones. *)
Theorem vapi_transcripts_grow (acts : list Action) (st : OmniChatState) :
  ~ In EndReset acts ->
  exists more,
    transcripts (finalState vapi acts st) = (transcripts st ++ more)%list.
Proof.
  revert st. induction acts as [| a acts IH]; intros st N.
  - exists []. simpl. now rewrite app_nil_r.
  - simpl in N. apply Decidable.not_or in N as [Na Nr].
    destruct (vapi_step_grows a st Na) as [m1 E1].
    destruct (IH (applyAction vapi a st) Nr) as [m2 E2].
    exists (m1 ++ m2)%list. unfold finalState in *. simpl.
    now rewrite E2, E1, app_assoc.
Qed.

Lemma vapi_transcripts_grow_witness :
  exists more,
    transcripts (finalState vapi sampleVapiSession
                   (withTranscripts [{| role := "user"; text := "hi" |}]
                                    (initialState vapi)))
    = ([{| role := "user"; text := "hi" |}] ++ more)%list.
Proof.
  apply (vapi_transcripts_grow sampleVapiSession
           (withTranscripts [{| role := "user"; text := "hi" |}]
                            (initialState vapi))).
  simpl. intros H.
  repeat (destruct H as [H | H]; [discriminate H |]). exact H.
Defined.

(* ================================================================== *)
(** * Further properties of the server side *)

(** ** The DELETE handler *)

(** The DELETE handler answers 200, 400, 401 or 500, and 500 only for an
    authenticated Ultravox termination with a call id. *)
Theorem DELETE_reply_codes (authenticated : bool)
        (provider callId dialId : option string)
        (response : Result HttpResponse) :
  let reply := snd (OmniVoice.DELETE authenticated provider callId dialId response) in
  In (OmniVoice.replyStatus reply) [200; 400; 401; 500]%Z
  /\ (OmniVoice.replyStatus reply = 500%Z ->
      authenticated = true
      /\ isString provider "ultravox" = true
      /\ OmniVoice.present callId = true).
Proof.
  unfold OmniVoice.DELETE, OmniVoice.deleteCall, OmniVoice.endVapiCall,
    OmniVoice.endUltravoxCall.
  destruct authenticated; simpl; [| split; [tauto | discriminate]].
  destruct (OmniVoice.present provider); simpl; [| split; [tauto | discriminate]].
  destruct (isString provider "vogent"); simpl.
  { destruct (OmniVoice.present dialId); simpl; split; (tauto || discriminate). }
  destruct (isString provider "vapi"); simpl.
  { destruct (OmniVoice.present callId); simpl;
      [| split; (tauto || discriminate)].
    destruct response as [r | e]; [destruct (_ && _) |]; simpl;
      split; (tauto || discriminate). }
  destruct (isString provider "ultravox"); simpl;
    [| split; (tauto || discriminate)].
  destruct (OmniVoice.present callId); simpl;
    [| split; (tauto || discriminate)].
  destruct response as [r | e]; [destruct (_ && _) |]; simpl;
    split; auto; tauto || discriminate.
Qed.



(** With a call id, the termination of an Ultravox call is answered 200
    exactly when the provider answered, with a success status or with 404,
    410 or 425; a failed request or any other status gives 500. *)
Theorem DELETE_ultravox_success_iff (callId dialId : option string)
                                    (response : Result HttpResponse) :
  OmniVoice.present callId = true ->
  let reply := snd (OmniVoice.DELETE true (Some "ultravox") callId dialId response) in
  (OmniVoice.replyStatus reply = 200%Z \/ OmniVoice.replyStatus reply = 500%Z)
  /\ (OmniVoice.replyStatus reply = 200%Z <->
      exists r, response = Ok r
                /\ ((200 <= httpStatus r <= 299)%Z
                    \/ In (httpStatus r) [404; 410; 425]%Z)).
Proof.
  intros C. unfold OmniVoice.DELETE, OmniVoice.deleteCall, OmniVoice.endUltravoxCall.
  cbn -[existsb]. rewrite C. cbn -[existsb].
  destruct response as [r | e].
  - unfold ok.
    destruct ((200 <=? httpStatus r)%Z && (httpStatus r <=? 299)%Z) eqn:R;
      cbn -[existsb In].
    + split; [now left |]. split; [| reflexivity].
      intros _. exists r. split; [reflexivity | left].
      apply andb_true_iff in R as [R1 R2]. lia.
    + destruct (existsb (Z.eqb (httpStatus r)) [404; 410; 425]%Z) eqn:X;
        cbn -[In].
      * split; [now left |]. split; [| reflexivity].
        intros _. exists r. split; [reflexivity | right].
        apply existsb_exists in X as (z & Hz & E).
        apply Z.eqb_eq in E. now subst z.
      * split; [now right |]. split; [discriminate |].
        intros (r' & E & [Hr | Hr]); injection E as <-.
        -- apply andb_false_iff in R. lia.
        -- assert (Y : existsb (Z.eqb (httpStatus r)) [404; 410; 425]%Z = true).
           { apply existsb_exists. exists (httpStatus r).
             split; [exact Hr | apply Z.eqb_refl]. }
           congruence.
  - simpl. split; [now right |]. split; [discriminate |].
    intros (r & E & _). discriminate E.
Qed.

Lemma DELETE_ultravox_success_iff_witness :
  let reply := snd (OmniVoice.DELETE true (Some "ultravox") (Some "c1") None
                      (Ok (sampleResponse 503))) in
  (OmniVoice.replyStatus reply = 200%Z \/ OmniVoice.replyStatus reply = 500%Z)
  /\ (OmniVoice.replyStatus reply = 200%Z <->
      exists r, Ok (sampleResponse 503) = Ok r
                /\ ((200 <= httpStatus r <= 299)%Z
                    \/ In (httpStatus r) [404; 410; 425]%Z)).
Proof.
  apply (DELETE_ultravox_success_iff (Some "c1") None (Ok (sampleResponse 503))).
  reflexivity.
Defined.

(** When the identifier a provider needs is missing or empty (the dial id
    for Vogent, the call id for Vapi and Ultravox), the handler answers 400
    without attempting any termination: nothing is logged, whatever the
    provider would have answered and whatever the other identifier is. *)
Theorem DELETE_missing_identifier (p : VoiceProvider)
        (callId dialId : option string) (response : Result HttpResponse) :
  OmniVoice.present (identifierOf p callId dialId) = false ->
  OmniVoice.DELETE true (Some (providerName p)) callId dialId response
  = ([], OmniVoice.mkReply 400 (identifierRequired p)).
Proof.
  intros H. unfold OmniVoice.DELETE, OmniVoice.deleteCall.
  destruct p; simpl in H;
    cbn -[OmniVoice.endVapiCall OmniVoice.endUltravoxCall];
    rewrite H; reflexivity.
Qed.

Lemma DELETE_missing_identifier_witness :
  OmniVoice.DELETE true (Some "vogent") (Some "c1") (Some "") (Ok (sampleResponse 200))
  = ([], OmniVoice.mkReply 400 "Dial ID required").
Proof.
  apply (DELETE_missing_identifier vogent (Some "c1") (Some "")
           (Ok (sampleResponse 200))).
  reflexivity.
Defined.

(** ** The POST handler and call creation *)

Lemma POST_upstream_error (p : VoiceProvider) (agent : option string)
                          (u : OmniVoiceCreate.Upstream) :
  OmniVoiceCreate.upOk u = false ->
  (p = vogent -> OmniVoice.present agent = true) ->
  OmniVoiceCreate.POST true (Ok (Some (providerName p))) agent (Ok u)
  = ([OmniVoice.LogThrown "Failed to create voice call:"
        (ErrorObj (createPrefix p ++ OmniVoiceCreate.upText u))],
     OmniVoiceCreate.TextReply 500 (createPrefix p ++ OmniVoiceCreate.upText u)).
Proof.
  intros U A.
  unfold OmniVoiceCreate.POST, OmniVoiceCreate.create,
    OmniVoiceCreate.createVogentDial, OmniVoiceCreate.createVapiCall,
    OmniVoiceCreate.createUltravoxCall, OmniVoiceCreate.parsed.
  destruct p; simpl; rewrite ?(A eq_refl), U; reflexivity.
Qed.

(** When a provider's call-creation endpoint answers with a status that is
    not a success, the POST handler answers 500 with a body made of the
    provider's prefix and the provider's answer as it came, and logs the
    error.  The agent id is needed for Vogent only: for Vapi and Ultravox
    the answer is the same with or without it. *)
Theorem POST_upstream_error_verbatim (p : VoiceProvider) (agent : option string)
                                     (u : OmniVoiceCreate.Upstream) :
  OmniVoiceCreate.upOk u = false ->
  (p = vogent -> OmniVoice.present agent = true) ->
  OmniVoiceCreate.POST true (Ok (Some (providerName p))) agent (Ok u)
  = ([OmniVoice.LogThrown "Failed to create voice call:"
        (ErrorObj (createPrefix p ++ OmniVoiceCreate.upText u))],
     OmniVoiceCreate.TextReply 500 (createPrefix p ++ OmniVoiceCreate.upText u)).
Proof. exact (POST_upstream_error p agent u). Qed.

Lemma POST_upstream_error_verbatim_witness :
  OmniVoiceCreate.POST true (Ok (Some "ultravox")) None (Ok sampleUpstreamFailure)
  = ([OmniVoice.LogThrown "Failed to create voice call:"
        (ErrorObj "Failed to create Ultravox call: overloaded")],
     OmniVoiceCreate.TextReply 500 "Failed to create Ultravox call: overloaded").
Proof.
  apply (POST_upstream_error_verbatim ultravox None sampleUpstreamFailure).
  - reflexivity.
  - discriminate.
Defined.

(** The POST handler answers with credentials only when it is
    authenticated and the provider's endpoint answered with a success status
    and a body that parses; nothing is logged then. *)
Theorem POST_success_needs_upstream
        (authenticated : bool) (body : Result (option string))
        (agent : option string) (response : Result OmniVoiceCreate.Upstream)
        (l : list OmniVoice.LogLine) (fields : list (string * option string)) :
  OmniVoiceCreate.POST authenticated body agent response
  = (l, OmniVoiceCreate.JsonReply fields) ->
  authenticated = true
  /\ l = []
  /\ exists u data, response = Ok u
                    /\ OmniVoiceCreate.upOk u = true
                    /\ OmniVoiceCreate.upJson u = Ok data.
Proof.
  unfold OmniVoiceCreate.POST, OmniVoiceCreate.create,
    OmniVoiceCreate.createVogentDial, OmniVoiceCreate.createVapiCall,
    OmniVoiceCreate.createUltravoxCall, OmniVoiceCreate.parsed.
  destruct authenticated; [| discriminate].
  destruct body as [provider | e]; [| discriminate].
  destruct response as [u | e].
  - destruct (OmniVoiceCreate.upOk u) eqn:U,
      (OmniVoiceCreate.upJson u) as [data | e] eqn:J;
      destruct (isString provider "vogent"), (OmniVoice.present agent),
        (isString provider "vapi"), (isString provider "ultravox");
      simpl; intros H; try discriminate H;
      injection H as <- _; repeat split; eauto.
  - destruct (isString provider "vogent"), (OmniVoice.present agent),
      (isString provider "vapi"), (isString provider "ultravox");
      simpl; discriminate.
Qed.

Lemma POST_success_needs_upstream_witness :
  exists u data, Ok sampleUpstreamOk = Ok u
                 /\ OmniVoiceCreate.upOk u = true
                 /\ OmniVoiceCreate.upJson u = Ok data.
Proof.
  apply (POST_success_needs_upstream true (Ok (Some "ultravox")) None
           (Ok sampleUpstreamOk) []
           [("joinUrl", Some "wss://join"); ("callId", Some "c1")]).
  reflexivity.
Defined.

(** Without a configured agent id, a Vogent session request is answered
    500 "VOGENT_CALL_AGENT_ID is not configured" before any call to the
    provider: the answer does not depend on what the provider would say. *)
Theorem POST_vogent_unconfigured (agent : option string)
                                 (response : Result OmniVoiceCreate.Upstream) :
  OmniVoice.present agent = false ->
  OmniVoiceCreate.POST true (Ok (Some "vogent")) agent response
  = ([OmniVoice.LogThrown "Failed to create voice call:"
        (ErrorObj "VOGENT_CALL_AGENT_ID is not configured")],
     OmniVoiceCreate.TextReply 500 "VOGENT_CALL_AGENT_ID is not configured").
Proof.
  intros A. unfold OmniVoiceCreate.POST, OmniVoiceCreate.create.
  simpl. now rewrite A.
Qed.

Lemma POST_vogent_unconfigured_witness :
  OmniVoiceCreate.POST true (Ok (Some "vogent")) (Some "") (Ok sampleUpstreamOk)
  = ([OmniVoice.LogThrown "Failed to create voice call:"
        (ErrorObj "VOGENT_CALL_AGENT_ID is not configured")],
     OmniVoiceCreate.TextReply 500 "VOGENT_CALL_AGENT_ID is not configured").
Proof.
  apply (POST_vogent_unconfigured (Some "") (Ok sampleUpstreamOk)). reflexivity.
Defined.

(** From the provider to the screen: when the provider refuses to create
    the call, the text of its answer, behind the prefix the library adds,
    is what a Vogent or Ultravox [startCall] that passes the guard stores in
    [error]; the start ends with isConnecting = false, isConnected as it
    was, without a connection object.  The agent id is needed for Vogent
    only. *)
Theorem upstream_error_reaches_state
        (p : VoiceProvider) (agent : option string)
        (u : OmniVoiceCreate.Upstream) (parseError : Thrown)
        (resp : HttpResponse) (rendered : OmniChatState) (options : Options)
        (env : StartEnv) (h : Hook) :
  p <> vapi ->
  OmniVoiceCreate.upOk u = false ->
  (p = vogent -> OmniVoice.present agent = true) ->
  clientResponse parseError
    (snd (OmniVoiceCreate.POST true (Ok (Some (providerName p))) agent (Ok u)))
  = Some resp ->
  guard rendered = false ->
  sdkImport env = Ok tt ->
  sessionResponse env = Ok resp ->
  let h' := fst (startCall p rendered options env h) in
  error (state h') = Some (createPrefix p ++ OmniVoiceCreate.upText u)
  /\ isConnecting (state h') = false
  /\ isConnected (state h') = isConnected (state h)
  /\ sameRefs h h'.
Proof.
  intros P U A C G I S.
  rewrite (POST_upstream_error p agent u U A) in C. simpl in C.
  injection C as <-.
  set (msg := createPrefix p ++ OmniVoiceCreate.upText u) in *.
  assert (CE : credentialsError env = Some (ErrorObj msg)).
  { unfold credentialsError. rewrite I, S. reflexivity. }
  assert (F : startError p env = Some (ErrorObj msg)).
  { unfold startError. destruct p; rewrite ?CE; try reflexivity. congruence. }
  destruct (startCall_caught p rendered options env h _ G F) as (H1 & H2 & H3 & _).
  cbv zeta. split; [exact H2 |]. split; [exact H1 |]. split; [exact H3 |].
  rewrite (startCall_unguarded p rendered options env h G).
  destruct env as [i sr st au k]; simpl in I, S; subst i sr.
  destruct options as [[callback |]]; destruct p; try congruence;
    repeat split.
Qed.

Lemma upstream_error_reaches_state_witness :
  let env := {| sdkImport := Ok tt;
                sessionResponse :=
                  Ok {| httpStatus := 500;
                        bodyText := "Failed to create Ultravox call: overloaded";
                        bodyJson := Throw NonError |};
                sdkStart := Ok None; sdkConnectAudio := Ok tt;
                vapiPublicKey := "pk" |} in
  let h' := fst (startCall ultravox (initialState ultravox) panelOptions env
                           (initialHook ultravox)) in
  error (state h') = Some "Failed to create Ultravox call: overloaded"
  /\ isConnecting (state h') = false
  /\ isConnected (state h') = false
  /\ sameRefs (initialHook ultravox) h'.
Proof.
  cbv zeta.
  apply (upstream_error_reaches_state ultravox None
           sampleUpstreamFailure NonError
           {| httpStatus := 500;
              bodyText := "Failed to create Ultravox call: overloaded";
              bodyJson := Throw NonError |}
           (initialState ultravox) panelOptions);
    try reflexivity; discriminate.
Defined.

(** ** The search route and the [webSearch] tool *)

Lemma truthy_app (a b : string) : Js.truthy a = true -> Js.truthy (a ++ b) = true.
Proof. destruct a; [discriminate | reflexivity]. Qed.

Lemma summarize_truthy (results : SearchRoute.Results) :
  Js.truthy (SearchRoute.summarize results) = true.
Proof.
  unfold SearchRoute.summarize.
  destruct (Js.truthy (SearchRoute.answer results)) eqn:A; [exact A |].
  destruct (Js.truthy (SearchRoute.abstract results)) eqn:B;
    [now apply truthy_app |].
  destruct (Js.truthy (SearchRoute.definition results)) eqn:D; [exact D |].
  destruct (Nat.ltb 0 _); reflexivity.
Qed.


(** The [webSearch] tool never throws and never answers with an empty
    string, whatever the search request does: a failed request, an error
    status, a body that does not parse or a missing summary each give a
    fixed sentence. *)
Theorem webSearchTool_always_answers (response : Result SearchHttp) :
  exists answer : string,
    webSearchTool response = Ok answer /\ Js.truthy answer = true.
Proof.
  unfold webSearchTool, catchResult.
  destruct response as [r | e]; [| eauto].
  destruct (negb (searchOk r)); [eauto |].
  destruct (searchJson r) as [[s |] | e]; simpl; [| eauto | eauto].
  unfold Js.or. destruct (Js.truthy s) eqn:T; eauto.
Qed.

(** Tool and route together: the tool's answer is the summary of the
    route whenever the route answers with one (the summary is never empty, so
    the tool's own "No results found." does not occur), and "Search failed.
    Please try again." for each of the route's error replies (401, 400,
    500). *)
Theorem webSearch_through_route
        (authenticated : bool) (body : Result (option string))
        (upstream : Result SearchRoute.Upstream) (parseError : Thrown) :
  let reply := snd (SearchRoute.POST authenticated body upstream) in
  webSearchTool (Ok (SearchRoute.asSearchHttp parseError reply))
  = Ok match reply with
       | SearchRoute.Json summary _ => summary
       | SearchRoute.Plain _ _ => "Search failed. Please try again."
       end
  /\ match reply with
     | SearchRoute.Json summary results =>
         Js.truthy summary = true /\ summary = SearchRoute.summarize results
     | SearchRoute.Plain code _ => In code [400; 401; 500]%Z
     end.
Proof.
  cbv zeta. unfold SearchRoute.POST, SearchRoute.search.
  destruct authenticated; simpl; [| split; [reflexivity | tauto]].
  destruct body as [query | e]; simpl; [| split; [reflexivity | tauto]].
  destruct (OmniVoice.present query); simpl; [| split; [reflexivity | tauto]].
  destruct upstream as [u | e]; simpl; [| split; [reflexivity | tauto]].
  destruct (SearchRoute.upOk u); simpl; [| split; [reflexivity | tauto]].
  destruct (SearchRoute.upData u) as [data | e]; simpl;
    [| split; [reflexivity | tauto]].
  pose proof (summarize_truthy (SearchRoute.extract data)) as T.
  split; [| split; [exact T | reflexivity]].
  unfold webSearchTool, catchResult. simpl. unfold Js.or. now rewrite T.
Qed.

(** ** The history formatters *)

Lemma hasPayload_truthy (msg : OmniVoice.ChatMessage) :
  hasPayload msg = true -> Js.truthy (payload msg) = true.
Proof.
  rewrite textPayload_hasPayload. unfold payload, OmniVoice.textPayload.
  destruct (find OmniVoice.isTextPart (OmniVoice.parts msg)) as [p |];
    [| discriminate].
  destruct (OmniVoice.text p) as [t |]; [| discriminate].
  destruct (Js.truthy t) eqn:T; [intros _; exact T | discriminate].
Qed.

(** What the formatters emit is ready to send: every entry has a content
    that is not empty; Vapi's roles are "user", "system" or "assistant"; and
    neither list is longer than the history. *)
Theorem formatters_wellformed (ms : list OmniVoice.ChatMessage) :
  Forall (fun e => In (OmniVoice.rc_role e) ["user"; "system"; "assistant"]
                   /\ Js.truthy (OmniVoice.rc_content e) = true)
         (OmniVoice.formatMessagesForVapi ms)
  /\ Forall (fun e => Js.truthy (OmniVoice.rc_content e) = true)
            (OmniVoice.formatMessagesForUltravox ms)
  /\ List.length (OmniVoice.formatMessagesForVapi ms) <= List.length ms
  /\ List.length (OmniVoice.formatMessagesForUltravox ms) <= List.length ms.
Proof.
  unfold OmniVoice.formatMessagesForVapi, OmniVoice.formatMessagesForUltravox.
  rewrite !format_translate, !Forall_map, !length_map.
  repeat split; try apply filter_length_le.
  - apply Forall_forall. intros m Hm. apply filter_In in Hm as [_ Hm].
    split; [| now apply hasPayload_truthy].
    simpl. unfold OmniVoice.vapiRoleOf.
    destruct (_ =? "user"); [tauto |]. destruct (_ =? "system"); tauto.
  - apply Forall_forall. intros m Hm. apply filter_In in Hm as [_ Hm].
    now apply hasPayload_truthy.
Qed.

(** The formatters work message by message: formatting two histories one
    after the other gives the two formatted lists one after the other, in
    the same order. *)
Theorem formatters_append (ms1 ms2 : list OmniVoice.ChatMessage) :
  OmniVoice.formatMessagesForVapi (ms1 ++ ms2)
  = (OmniVoice.formatMessagesForVapi ms1 ++ OmniVoice.formatMessagesForVapi ms2)%list
  /\ OmniVoice.formatMessagesForUltravox (ms1 ++ ms2)
     = (OmniVoice.formatMessagesForUltravox ms1
        ++ OmniVoice.formatMessagesForUltravox ms2)%list.
Proof.
  unfold OmniVoice.formatMessagesForVapi, OmniVoice.formatMessagesForUltravox.
  rewrite !format_translate, !filter_app, !map_app. split; reflexivity.
Qed.

(** The content of a message is the text of its first text part that has
    a text: parts of another type and text parts without text before it are
    passed over, and whatever follows it is ignored. *)
Theorem textPayload_first_text_part
        (r : string) (before after : list OmniVoice.Part) (p : OmniVoice.Part)
        (t : string) :
  Forall (fun q => OmniVoice.type q <> "text"
                   \/ OmniVoice.text q = None
                   \/ OmniVoice.text q = Some "") before ->
  OmniVoice.type p = "text" ->
  OmniVoice.text p = Some t ->
  t <> "" ->
  OmniVoice.textPayload
    {| OmniVoice.role := r; OmniVoice.parts := (before ++ p :: after)%list |}
  = Some t.
Proof.
  intros B Ty Tx Ne.
  assert (P : OmniVoice.isTextPart p = true).
  { unfold OmniVoice.isTextPart. rewrite Ty, Tx. simpl.
    destruct t; [congruence | reflexivity]. }
  unfold OmniVoice.textPayload. simpl.
  induction B as [| q qs Hq _ IH]; simpl.
  - rewrite P, Tx. destruct t; [congruence | reflexivity].
  - assert (Q : OmniVoice.isTextPart q = false).
    { unfold OmniVoice.isTextPart.
      destruct Hq as [Hq | [Hq | Hq]].
      - apply String.eqb_neq in Hq. now rewrite Hq.
      - rewrite Hq. apply andb_false_r.
      - rewrite Hq. apply andb_false_r. }
    rewrite Q. exact IH.
Qed.

Lemma textPayload_first_text_part_witness :
  OmniVoice.textPayload sampleMixedMessage = Some "hello".
Proof.
  apply (textPayload_first_text_part "user"
           [{| OmniVoice.type := "image"; OmniVoice.text := Some "alt" |};
            {| OmniVoice.type := "text"; OmniVoice.text := Some "" |}]
           [{| OmniVoice.type := "text"; OmniVoice.text := Some "again" |}]
           {| OmniVoice.type := "text"; OmniVoice.text := Some "hello" |}
           "hello").
  - constructor; [left; discriminate |].
    constructor; [right; right; reflexivity | constructor].
  - reflexivity.
  - reflexivity.
  - discriminate.
Defined.
